(** * Cooklang-TS: the public surface of [src/index.ts]

    A shallow embedding of [getImageURL] and of the [Recipe] class
    ([constructor], [toCooklang], [toJSON]) of the Cooklang-TS library,
    together with the parts of the JavaScript run time these functions rely
    on: IEEE-754 binary64 numbers, truthiness, [Number::toString],
    [Array.prototype.join] and [JSON.stringify].

    The parser of the library, [src/Parser.ts], is not among the sources.
    The constructor is stated over any [Parser]; the parser itself, with its
    quantity grammar, is modelled from the specification, and the round trip
    through [toCooklang] is stated for that model. *)

From Stdlib Require Import ZArith QArith Qround Qabs List String Ascii Bool Lia.
From Stdlib Require Import DecimalString DecimalPos.
From Stdlib Require Import SpecFloat.
Import ListNotations.

Open Scope string_scope.

(** ** JavaScript values *)

Module JS.

(** A JavaScript number is an IEEE-754 binary64 value. *)
Definition number : Type := spec_float.

Definition prec : Z := 53.
Definition emax : Z := 1024.

(** The number denoted by an integer literal (rounded to nearest, ties to
    even, as every numeric literal is). *)
Definition of_Z (z : Z) : number := binary_normalize prec emax z 0 false.

Definition div (x y : number) : number := SFdiv prec emax x y.

Definition isNaN (x : number) : bool :=
  match x with S754_nan => true | _ => false end.

Definition isZero (x : number) : bool :=
  match x with S754_zero _ => true | _ => false end.

(** The same number value, sign of zero included. *)
Definition same_number (x y : number) : bool :=
  match x, y with
  | S754_zero s, S754_zero t => Bool.eqb s t
  | S754_infinity s, S754_infinity t => Bool.eqb s t
  | S754_nan, S754_nan => true
  | S754_finite s m e, S754_finite t n f =>
      Bool.eqb s t && Pos.eqb m n && Z.eqb e f
  | _, _ => false
  end.

(** [ToBoolean] on a number: [+0], [-0] and [NaN] are falsy. *)
Definition truthy_number (x : number) : bool :=
  negb (isZero x || isNaN x).

(** [ToBoolean] on a string: only the empty string is falsy. *)
Definition truthy_string (s : string) : bool :=
  match s with EmptyString => false | String _ _ => true end.

(** [Number.isInteger]. *)
Definition isInteger (x : number) : bool :=
  match x with
  | S754_zero _ => true
  | S754_finite _ m e =>
      if (0 <=? e)%Z then true
      else (Z.pos m mod 2 ^ (- e) =? 0)%Z
  | _ => false
  end.

(** [x < 0] and [x > 0]. *)
Definition isNegative (x : number) : bool :=
  match x with
  | S754_finite true _ _ | S754_infinity true => true
  | _ => false
  end.

Definition isPositive (x : number) : bool :=
  match x with
  | S754_finite false _ _ | S754_infinity false => true
  | _ => false
  end.

(** *** [Number::toString] (ECMA-262, radix 10) *)

Definition pow10 (n : Z) : Q := Qpower (10 # 1) n.
Definition pow2 (n : Z) : Q := Qpower (2 # 1) n.

Definition Qltb (a b : Q) : bool := negb (Qle_bool b a).

(** The real number [m * 2^e]. *)
Definition Qvalue (m : positive) (e : Z) : Q := inject_Z (Z.pos m) * pow2 e.

(** [rounds_to m e v]: the real [v] rounds (to nearest, ties to even) to the
    binary64 number [m * 2^e]; that is, [v] lies between the midpoints
    towards the two neighbours of the number, the midpoints themselves
    included when the significand is even. *)
Definition rounds_to (m : positive) (e : Z) (v : Q) : bool :=
  let hi := inject_Z (2 * Z.pos m + 1) * pow2 (e - 1) in
  let lo :=
    if ((Z.pos m =? 2 ^ 52) && (-1074 <? e))%Z
    then inject_Z (4 * Z.pos m - 1) * pow2 (e - 2)
    else inject_Z (2 * Z.pos m - 1) * pow2 (e - 1) in
  if Z.even (Z.pos m)
  then Qle_bool lo v && Qle_bool v hi
  else Qltb lo v && Qltb v hi.

(** The least [n >= from] with [x < 10^n]. *)
Fixpoint magnitude (fuel : nat) (x : Q) (from : Z) : Z :=
  match fuel with
  | O => from
  | S fuel' => if Qltb x (pow10 from) then from
               else magnitude fuel' x (from + 1)%Z
  end.

(** The decimal representations [s * 10^(n-k)] with exactly [k] digits that
    round to [m * 2^e]; only the two integers next to [x / 10^(n-k)], for the
    two possible positions [n] of the decimal point, can qualify. *)
Definition candidates (m : positive) (e : Z) (n0 k : Z) : list (Z * Z) :=
  let x := Qvalue m e in
  flat_map (fun n =>
    let f := Qfloor (x / pow10 (n - k)) in
    filter (fun sn : Z * Z =>
              let s := fst sn in
              ((10 ^ (k - 1) <=? s) && (s <? 10 ^ k))%Z
              && rounds_to m e (inject_Z s * pow10 (n - k)))
           [(f, n); ((f + 1)%Z, n)])
    [n0; (n0 + 1)%Z].

Definition distance (x : Q) (k : Z) (sn : Z * Z) : Q :=
  Qabs (inject_Z (fst sn) * pow10 (snd sn - k) - x).

(** [c] is to be kept rather than [best]: it is closer to the number, or as
    close and its digits [s] are even. *)
Definition better (x : Q) (k : Z) (c best : Z * Z) : bool :=
  Qltb (distance x k c) (distance x k best)
  || (Qle_bool (distance x k c) (distance x k best) && Z.even (fst c)).

(** Among several candidates, the one closest to the number and, of two at
    the same distance, the one whose digits are even. *)
Fixpoint closest (x : Q) (k : Z) (best : Z * Z) (l : list (Z * Z)) : Z * Z :=
  match l with
  | [] => best
  | c :: l' => closest x k (if better x k c best then c else best) l'
  end.

(** The integers [n], [k], [s] of [Number::toString]: [k] is as small as
    possible. *)
Fixpoint shortest (fuel : nat) (m : positive) (e : Z) (n0 k : Z) : Z * Z * Z :=
  match fuel with
  | O => (n0, k, 0%Z)
  | S fuel' =>
      match candidates m e n0 k with
      | [] => shortest fuel' m e n0 (k + 1)%Z
      | c :: l => let (s, n) := closest (Qvalue m e) k c l in (n, k, s)
      end
  end.

Definition digits (z : Z) : string :=
  NilEmpty.string_of_uint (N.to_uint (Z.to_N z)).

Fixpoint zeros (n : nat) : string :=
  match n with O => "" | S n' => "0" ++ zeros n' end.

Definition toString_finite (m : positive) (e : Z) : string :=
  let x := Qvalue m e in
  let n0 := magnitude 640 x (-324) in
  let '(n, k, s) := shortest 17 m e n0 1 in
  let ds := digits s in
  if ((-5 <=? n) && (n <=? 21))%Z then
    if (k <=? n)%Z then ds ++ zeros (Z.to_nat (n - k))
    else if (0 <? n)%Z then
      substring 0 (Z.to_nat n) ds ++ "." ++ substring (Z.to_nat n) (Z.to_nat (k - n)) ds
    else "0." ++ zeros (Z.to_nat (- n)) ++ ds
  else
    let sign := if (n <? 0)%Z then "-" else "+" in
    let ex := digits (Z.abs (n - 1)) in
    if (k =? 1)%Z then ds ++ "e" ++ sign ++ ex
    else substring 0 1 ds ++ "." ++ substring 1 (Z.to_nat (k - 1)) ds
         ++ "e" ++ sign ++ ex.

Definition Number_toString (x : number) : string :=
  match x with
  | S754_nan => "NaN"
  | S754_zero _ => "0"
  | S754_infinity false => "Infinity"
  | S754_infinity true => "-Infinity"
  | S754_finite false m e => toString_finite m e
  | S754_finite true m e => "-" ++ toString_finite m e
  end.

(** *** Strings and arrays *)

(** The line feed character, written [\n] in the source. *)
Definition LF : string := String "010"%char "".

(** [Array.prototype.join] on an array of strings. *)
Fixpoint join (sep : string) (l : list string) : string :=
  match l with
  | [] => ""
  | [x] => x
  | x :: l' => x ++ sep ++ join sep l'
  end.

(** [ToBoolean] on an optional property holding a string: an absent (or
    [undefined]) property is falsy. *)
Definition truthy_opt_string (o : option string) : bool :=
  match o with Some s => truthy_string s | None => false end.

(** *** Completion of a call

    A call either returns a value or throws. *)
Inductive Completion (A : Type) : Type :=
| Normal (a : A)
| Throw (e : string).
Arguments Normal {A} a.
Arguments Throw {A} e.

Definition bind {A B : Type} (c : Completion A) (k : A -> Completion B)
  : Completion B :=
  match c with
  | Normal a => k a
  | Throw e => Throw e
  end.

End JS.

Close Scope Q_scope.

Notation "x <- c ;; k" := (JS.bind c (fun x => k))
  (at level 61, c at next level, right associativity).


(** ** Data model ([src/types.ts])

    The declarations of [./types] are not among the sources; the shapes
    below are the ones [index.ts] probes ([item.value], [item.type],
    [item.name], [item.quantity], [item.units], [x.name], [x.synonym],
    [options.step], [options.extension]) with the optionality the
    specification gives them. *)

(** A quantity is [string | number]. *)
Inductive Quantity : Type :=
| QNumber (n : JS.number)
| QString (s : string).

Inductive ItemType : Type := ingredient | cookware | timer.

(** A step item either has a [value] (text) or a [type], a [name] and the
    optional [quantity] and [units]. *)
Inductive StepItem : Type :=
| Text (value : string)
| Item (type : ItemType) (name : string)
       (quantity : option Quantity) (units : option string).

Definition Step : Type := list StepItem.

Record ShoppingItem : Type := {
  name : string;
  synonym : option string
}.

(** [Metadata] and [ShoppingList] are plain objects used as maps; they are
    represented by their entries in property-enumeration order, the order of
    [Object.entries] and of [JSON.stringify]. *)
Definition Metadata : Type := list (string * string).
Definition ShoppingList : Type := list (string * list ShoppingItem).

Record ImageURLOptions : Type := {
  step : option JS.number;
  extension : option string
}.

(** What [Parser.parse] returns: the three fields [Object.assign] copies
    onto the recipe. *)
Module ParseResult.
Record t : Type := {
  metadata : Metadata;
  steps : list Step;
  shoppingList : ShoppingList
}.
End ParseResult.

(** Modelled from the spec: the class [Parser] of [src/Parser.ts], which is
    not among the sources.  An instance is an object with the one method
    [parse], from notation source text to the parsed fields; the call may
    complete normally or throw. *)
Record Parser : Type := {
  parse : string -> JS.Completion ParseResult.t
}.

Record Recipe : Type := {
  metadata : Metadata;
  steps : list Step;
  shoppingList : ShoppingList;
  parser : Parser
}.

(** ** [getImageURL] *)

Definition getImageURL (name : string) (options : option ImageURLOptions)
  : JS.Completion string :=
  (* options ??= {} *)
  let options :=
    match options with
    | Some o => o
    | None => {| step := None; extension := None |}
    end in
  JS.Normal
    (name
     ++ (match step options with
         | Some n => if JS.truthy_number n then "." ++ JS.Number_toString n else ""
         | None => ""
         end)
     ++ "."
     ++ (match extension options with
         | Some e => if JS.truthy_string e then e else "png"
         | None => "png"
         end)).

(** ** [Recipe] *)

(** The field initialisers of the class. *)
Definition Recipe_init (p : Parser) : Recipe :=
  {| metadata := []; steps := []; shoppingList := []; parser := p |}.

(** [Object.assign(this, result)]. *)
Definition Object_assign (this : Recipe) (result : ParseResult.t) : Recipe :=
  {| metadata := ParseResult.metadata result;
     steps := ParseResult.steps result;
     shoppingList := ParseResult.shoppingList result;
     parser := parser this |}.

(** [new Recipe(source)], where [new_Parser] is the instance [new Parser()]
    creates. *)
Definition Recipe_constructor (new_Parser : Parser) (source : option string)
  : JS.Completion Recipe :=
  let this := Recipe_init new_Parser in
  match source with
  | Some src =>
      if JS.truthy_string src then
        result <- parse (parser this) src ;;
        JS.Normal (Object_assign this result)
      else JS.Normal this
  | None => JS.Normal this
  end.

(** *** [toCooklang] *)

(** [ToBoolean] and [ToString] on [item.quantity]. *)
Definition truthy_quantity (q : option Quantity) : bool :=
  match q with
  | Some (QNumber n) => JS.truthy_number n
  | Some (QString s) => JS.truthy_string s
  | None => false
  end.

Definition Quantity_toString (q : Quantity) : string :=
  match q with
  | QNumber n => JS.Number_toString n
  | QString s => s
  end.

(** The first loop: [metadataStr += `>> ${key}: ${value}\n`]. *)
Definition metadata_loop (m : Metadata) : string :=
  fold_left
    (fun metadataStr (entry : string * string) =>
       let (key, value) := entry in
       metadataStr ++ (">> " ++ key ++ ": " ++ value ++ JS.LF))
    m "".

(** The body of the loop over the items of a step. *)
Definition item_body (stepStr : string) (item : StepItem) : string :=
  match item with
  | Text value => stepStr ++ value
  | Item type name quantity units =>
      let stepStr :=
        match type with
        | ingredient => stepStr ++ "@"
        | cookware => stepStr ++ "#"
        | timer => stepStr ++ "~"
        end in
      let stepStr := stepStr ++ name in
      let stepStr := stepStr ++ "{" in
      let stepStr :=
        match quantity with
        | Some q => if truthy_quantity quantity
                    then stepStr ++ Quantity_toString q else stepStr
        | None => stepStr
        end in
      let stepStr :=
        match units with
        | Some u => if JS.truthy_string u then stepStr ++ ("%" ++ u) else stepStr
        | None => stepStr
        end in
      stepStr ++ "}"
  end.

(** The second loop: one string per step, pushed onto [stepStrs]. *)
Definition steps_loop (l : list Step) : list string :=
  fold_left
    (fun (stepStrs : list string) (step : Step) =>
       let stepStr := fold_left item_body step "" in
       (stepStrs ++ [stepStr])%list)
    l [].

(** [x => x.name + (x.synonym ? '|' + x.synonym : '')]. *)
Definition shopping_item (x : ShoppingItem) : string :=
  name x ++ (match synonym x with
             | Some s => if JS.truthy_string s then "|" ++ s else ""
             | None => ""
             end).

(** The third loop: one string per category. *)
Definition shoppingList_loop (l : ShoppingList) : list string :=
  fold_left
    (fun (shoppingListStrs : list string) (entry : string * list ShoppingItem) =>
       let (category, items) := entry in
       let shoppingListStr := "" in
       let shoppingListStr := shoppingListStr ++ (category ++ JS.LF) in
       let shoppingListStr :=
         shoppingListStr ++ JS.join JS.LF (map shopping_item items) in
       (shoppingListStrs ++ [shoppingListStr])%list)
    l [].

Definition toCooklang (this : Recipe) : string :=
  let metadataStr := metadata_loop (metadata this) in
  let stepStrs := steps_loop (steps this) in
  let shoppingListStrs := shoppingList_loop (shoppingList this) in
  JS.join JS.LF
    [metadataStr;
     JS.join (JS.LF ++ JS.LF) stepStrs;
     JS.join (JS.LF ++ JS.LF) shoppingListStrs].

(** *** [toJSON] *)

Module JSON.

(** The values [JSON.stringify] is applied to. *)
#[local] Set Warnings "-register-all".
Inductive value : Type :=
| Null
| Number (n : JS.number)
| String_ (s : string)
| Array (l : list value)
| Object (l : list (string * value)).

Definition DQUOTE : ascii := "034"%char.
Definition BACKSLASH : ascii := "092"%char.

Definition hex_digit (n : nat) : ascii :=
  match n with
  | 0 => "0" | 1 => "1" | 2 => "2" | 3 => "3" | 4 => "4" | 5 => "5"
  | 6 => "6" | 7 => "7" | 8 => "8" | 9 => "9" | 10 => "a" | 11 => "b"
  | 12 => "c" | 13 => "d" | 14 => "e" | _ => "f"
  end%char.

(** The escape of one code unit in [QuoteJSONString]. *)
Definition escape (c : ascii) : string :=
  let n := nat_of_ascii c in
  if Ascii.eqb c DQUOTE then String BACKSLASH (String DQUOTE "")
  else if Ascii.eqb c BACKSLASH then String BACKSLASH (String BACKSLASH "")
  else match n with
       | 8 => String BACKSLASH "b"
       | 9 => String BACKSLASH "t"
       | 10 => String BACKSLASH "n"
       | 12 => String BACKSLASH "f"
       | 13 => String BACKSLASH "r"
       | _ =>
           if (n <? 32)%nat then
             String BACKSLASH
               ("u00" ++ String (hex_digit (n / 16)%nat)
                                (String (hex_digit (n mod 16)%nat) ""))
           else String c ""
       end.

Fixpoint escape_all (s : string) : string :=
  match s with
  | EmptyString => ""
  | String c s' => escape c ++ escape_all s'
  end.

Definition quote (s : string) : string :=
  String DQUOTE (escape_all s ++ String DQUOTE "").

Definition hex_value (c : ascii) : option nat :=
  let n := nat_of_ascii c in
  if ((48 <=? n) && (n <=? 57))%nat then Some (n - 48)
  else if ((97 <=? n) && (n <=? 102))%nat then Some (n - 87)
  else None.

(** The code unit at the head of the inside of a quoted string, and the
    text after it: the reading of what [escape] writes.  There is none at
    the closing quote. *)
Definition unescape (s : string) : option (ascii * string) :=
  match s with
  | EmptyString => None
  | String c rest =>
      if Ascii.eqb c DQUOTE then None
      else if Ascii.eqb c BACKSLASH then
        match rest with
        | String e rest' =>
            if Ascii.eqb e DQUOTE then Some (DQUOTE, rest')
            else if Ascii.eqb e BACKSLASH then Some (BACKSLASH, rest')
            else if Ascii.eqb e "b" then Some ("008"%char, rest')
            else if Ascii.eqb e "t" then Some ("009"%char, rest')
            else if Ascii.eqb e "n" then Some ("010"%char, rest')
            else if Ascii.eqb e "f" then Some ("012"%char, rest')
            else if Ascii.eqb e "r" then Some ("013"%char, rest')
            else if Ascii.eqb e "u" then
              match rest' with
              | String "0" (String "0" (String h (String l rest''))) =>
                  match hex_value h, hex_value l with
                  | Some x, Some y => Some (ascii_of_nat (16 * x + y), rest'')
                  | _, _ => None
                  end
              | _ => None
              end
            else None
        | EmptyString => None
        end
      else Some (c, rest)
  end.

(** [JSON.stringify] without replacer and without indentation. *)
Fixpoint stringify (v : value) : string :=
  match v with
  | Null => "null"
  | Number n =>
      match n with
      | S754_nan | S754_infinity _ => "null"
      | _ => JS.Number_toString n
      end
  | String_ s => quote s
  | Array l => "[" ++ JS.join "," (map stringify l) ++ "]"
  | Object l =>
      "{" ++ JS.join ","
               (map (fun kv : string * value =>
                       quote (fst kv) ++ ":" ++ stringify (snd kv)) l)
          ++ "}"
  end.

(** The property names of an object, in enumeration order. *)
Definition keys (v : value) : list string :=
  match v with
  | Object l => map fst l
  | _ => []
  end.

(** A property whose value is [undefined] is left out of the object. *)
Definition property (key : string) (v : option value) : list (string * value) :=
  match v with
  | Some v => [(key, v)]
  | None => []
  end.

End JSON.

Definition Quantity_json (q : Quantity) : JSON.value :=
  match q with
  | QNumber n => JSON.Number n
  | QString s => JSON.String_ s
  end.

Definition ItemType_name (t : ItemType) : string :=
  match t with
  | ingredient => "ingredient"
  | cookware => "cookware"
  | timer => "timer"
  end.

(** The object a step item is.  [JSON.stringify] writes the properties of
    an object in the order in which they were created; the parser that
    creates these objects and the declarations of [./types] are not among
    the sources, so the properties are taken in the order in which the data
    model of the specification lists them for its tagged variant: the tag
    [type] first, then [value] for text, and [name], [quantity], [units]
    otherwise. *)
Definition StepItem_json (item : StepItem) : JSON.value :=
  match item with
  | Text value =>
      JSON.Object [("type", JSON.String_ "text"); ("value", JSON.String_ value)]
  | Item type name quantity units =>
      JSON.Object
        ([("type", JSON.String_ (ItemType_name type));
          ("name", JSON.String_ name)]
         ++ JSON.property "quantity" (option_map Quantity_json quantity)
         ++ JSON.property "units" (option_map JSON.String_ units))%list
  end.

(** Two quantities, and two items, with the same JSON text: numbers are
    compared by what [JSON.stringify] writes for them ([NaN] and the
    infinities are all written [null], [0] and [-0] are both written [0]),
    everything else is equal. *)
Definition same_json_quantity (q1 q2 : option Quantity) : Prop :=
  match q1, q2 with
  | None, None => True
  | Some (QString s1), Some (QString s2) => s1 = s2
  | Some (QNumber n1), Some (QNumber n2) =>
      JSON.stringify (JSON.Number n1) = JSON.stringify (JSON.Number n2)
  | _, _ => False
  end.

Definition same_json_item (i1 i2 : StepItem) : Prop :=
  match i1, i2 with
  | Text v1, Text v2 => v1 = v2
  | Item t1 n1 q1 u1, Item t2 n2 q2 u2 =>
      t1 = t2 /\ n1 = n2 /\ same_json_quantity q1 q2 /\ u1 = u2
  | _, _ => False
  end.

Definition Metadata_json (m : Metadata) : JSON.value :=
  JSON.Object (map (fun kv : string * string => (fst kv, JSON.String_ (snd kv))) m).

Definition steps_json (l : list Step) : JSON.value :=
  JSON.Array (map (fun step : Step => JSON.Array (map StepItem_json step)) l).

(** The object literal [{ metadata: this.metadata, steps: this.steps }]. *)
Definition toJSON_object (this : Recipe) : JSON.value :=
  JSON.Object
    [("metadata", Metadata_json (metadata this));
     ("steps", steps_json (steps this))].

Definition toJSON (this : Recipe) : string :=
  JSON.stringify (toJSON_object this).

(** ** The Quantity Expression Reader *)

Module QuantityReader.

(** Modelled from the spec: the Quantity Expression Reader (section 4.3),
    part of [src/Parser.ts], which is not among the sources.  Given the text
    of a quantity slot it produces the quantity and, when a [%] separator is
    present, the units after it.  The numeric rules are tried in order and
    the first match wins: fraction [a/b], comma-decimal [a,b], plain integer
    or dot-separated decimal; any other text is kept verbatim (trimmed), and
    an empty slot gives no quantity. *)

Definition is_digit (c : ascii) : bool :=
  let n := nat_of_ascii c in ((48 <=? n) && (n <=? 57))%nat.

Fixpoint digits_value (s : string) (acc : Z) : option Z :=
  match s with
  | EmptyString => Some acc
  | String c s' =>
      if is_digit c
      then digits_value s' (10 * acc + Z.of_nat (nat_of_ascii c - 48))%Z
      else None
  end.

(** A non-empty run of decimal digits. *)
Definition natural (s : string) : option Z :=
  match s with
  | EmptyString => None
  | _ => digits_value s 0%Z
  end.

(** The text before and after the first occurrence of [c]. *)
Fixpoint split_at (c : ascii) (s : string) : option (string * string) :=
  match s with
  | EmptyString => None
  | String d s' =>
      if Ascii.eqb d c then Some ("", s')
      else match split_at c s' with
           | Some (a, b) => Some (String d a, b)
           | None => None
           end
  end.

(** Rule 1: [a/b] is [a] divided by [b]. *)
Definition fraction (s : string) : option JS.number :=
  match split_at "/" s with
  | Some (a, b) =>
      match natural a, natural b with
      | Some x, Some y => Some (JS.div (JS.of_Z x) (JS.of_Z y))
      | _, _ => None
      end
  | None => None
  end.

(** [a<sep>b] read as the decimal number with integer part [a] and
    fractional digits [b]: the binary64 number nearest to
    [(a * 10^|b| + b) / 10^|b|] (both integers are taken as binary64 numbers
    first, which is exact below [2^53]). *)
Definition decimal (sep : ascii) (s : string) : option JS.number :=
  match split_at sep s with
  | Some (a, b) =>
      match natural a, natural b with
      | Some x, Some y =>
          let scale := (10 ^ Z.of_nat (String.length b))%Z in
          Some (JS.div (JS.of_Z (x * scale + y)) (JS.of_Z scale))
      | _, _ => None
      end
  | None => None
  end.

(** Rule 2: the comma is a decimal point. *)
Definition comma_decimal : string -> option JS.number := decimal ",".

(** Rule 3: a plain integer or a dot-separated decimal. *)
Definition plain (s : string) : option JS.number :=
  match natural s with
  | Some x => Some (JS.of_Z x)
  | None => decimal "." s
  end.

(** Modelled from the spec: the numeric grammar, in the order in which the
    rules are tried (section 4.3; [src/Parser.ts] is not among the
    sources). *)
Definition rules : list (string -> option JS.number) :=
  [fraction; comma_decimal; plain].

Fixpoint first_match (rs : list (string -> option JS.number)) (s : string)
  : option JS.number :=
  match rs with
  | [] => None
  | r :: rs' =>
      match r s with
      | Some n => Some n
      | None => first_match rs' s
      end
  end.

Definition is_space (c : ascii) : bool :=
  let n := nat_of_ascii c in (((9 <=? n) && (n <=? 13)) || (n =? 32))%nat.

Fixpoint trim_start (s : string) : string :=
  match s with
  | EmptyString => ""
  | String c s' => if is_space c then trim_start s' else s
  end.

Fixpoint trim_end (s : string) : string :=
  match s with
  | EmptyString => ""
  | String c s' =>
      match trim_end s' with
      | EmptyString => if is_space c then "" else String c ""
      | t => String c t
      end
  end.

Definition trim (s : string) : string := trim_end (trim_start s).

(** Modelled from the spec: the quantity of a slot text without units
    (section 4.3 of the specification; the code is in [src/Parser.ts], not
    among the sources): absent when the text is empty, numeric when a rule
    matches, and by rule 4 the raw text, trimmed, otherwise. *)
Definition readQuantity (text : string) : option Quantity :=
  let text := trim text in
  match text with
  | EmptyString => None
  | _ =>
      match first_match rules text with
      | Some n => Some (QNumber n)
      | None => Some (QString text)
      end
  end.

(** Modelled from the spec: the Quantity Expression Reader on a whole slot
    (section 4.3; [src/Parser.ts] is not among the sources): the quantity
    of the text before the first [%], and the units after it when [%] is
    present. *)
Definition readSlot (slot : string) : option Quantity * option string :=
  match split_at "%" slot with
  | Some (text, units) => (readQuantity text, Some units)
  | None => (readQuantity slot, None)
  end.

End QuantityReader.

(** ** What the serializer emits, stated declaratively *)

Definition sigil (t : ItemType) : string :=
  match t with
  | ingredient => "@"
  | cookware => "#"
  | timer => "~"
  end.

(** The quantity, when it is present and truthy. *)
Definition quantity_text (q : option Quantity) : string :=
  match q with
  | Some q' => if truthy_quantity q then Quantity_toString q' else ""
  | None => ""
  end.

(** [%] and the units, when they are present and not empty. *)
Definition units_text (u : option string) : string :=
  match u with
  | Some u' => if JS.truthy_string u' then "%" ++ u' else ""
  | None => ""
  end.

Definition item_text (item : StepItem) : string :=
  match item with
  | Text value => value
  | Item type name quantity units =>
      sigil type ++ name ++ "{" ++ quantity_text quantity ++ units_text units ++ "}"
  end.

Definition step_text (step : Step) : string :=
  String.concat "" (map item_text step).

Definition metadata_line (entry : string * string) : string :=
  ">> " ++ fst entry ++ ": " ++ snd entry ++ JS.LF.

(** The same line without the line feed that ends it. *)
Definition entry_line (kv : string * string) : string :=
  ">> " ++ fst kv ++ ": " ++ snd kv.

Definition metadata_text (m : Metadata) : string :=
  String.concat "" (map metadata_line m).

Definition category_text (entry : string * list ShoppingItem) : string :=
  fst entry ++ JS.LF ++ JS.join JS.LF (map shopping_item (snd entry)).

(** The step of the options is absent or a positive integer. *)
Definition positive_integer (n : JS.number) : bool :=
  JS.isPositive n && JS.isInteger n.

Definition step_is_positive_integer (options : option ImageURLOptions) : bool :=
  match options with
  | Some {| step := Some n |} => positive_integer n
  | _ => true
  end.

(** The [.step] segment of the URL when a step is given. *)
Definition step_segment (options : option ImageURLOptions) : string :=
  match options with
  | Some {| step := Some n |} => "." ++ JS.Number_toString n
  | _ => ""
  end.

(** The extension of the options, ["png"] when it is absent or empty. *)
Definition extension_or_png (options : option ImageURLOptions) : string :=
  match options with
  | Some {| extension := Some e |} => if JS.truthy_string e then e else "png"
  | _ => "png"
  end.

(** [String.prototype.split] on the line feed. *)
Fixpoint lines_from (current : string) (s : string) : list string :=
  match s with
  | EmptyString => [current]
  | String c s' =>
      if Ascii.eqb c "010" then current :: lines_from "" s'
      else lines_from (current ++ String c "") s'
  end.

Definition lines (s : string) : list string := lines_from "" s.

(** ** The claims of the specification, in its own words *)

Module Spec.

(** The image URL: [name + ('.' + step if step given) + '.' + extension],
    the extension being ["png"] when the option is absent. *)
Definition imageURL (name : string) (options : option ImageURLOptions) : string :=
  name
  ++ (match options with
      | Some {| step := Some n |} => "." ++ JS.Number_toString n
      | _ => ""
      end)
  ++ "."
  ++ (match options with
      | Some {| extension := Some e |} => e
      | _ => "png"
      end).

(** An annotated item: sigil, name, and a brace pair containing the quantity
    if present and [%units] if present. *)
Definition item_text (item : StepItem) : string :=
  match item with
  | Text value => value
  | Item type name quantity units =>
      sigil type ++ name ++ "{"
      ++ (match quantity with Some q => Quantity_toString q | None => "" end)
      ++ (match units with Some u => "%" ++ u | None => "" end)
      ++ "}"
  end.

Definition step_text (step : Step) : string :=
  String.concat "" (map item_text step).

(** A shopping item: the name, or name, separator and synonym when a synonym
    is present. *)
Definition shopping_item (x : ShoppingItem) : string :=
  name x ++ (match synonym x with Some s => "|" ++ s | None => "" end).

Definition category_text (entry : string * list ShoppingItem) : string :=
  fst entry ++ JS.LF ++ JS.join JS.LF (map shopping_item (snd entry)).

(** The image-URL builder rejects a negative or non-integer step. *)
Definition rejects_invalid_step : Prop :=
  forall (name : string) (options : ImageURLOptions) (n : JS.number),
    step options = Some n ->
    (JS.isNegative n || negb (JS.isInteger n))%bool = true ->
    exists e, getImageURL name (Some options) = JS.Throw e.

End Spec.

(** ** The round trip through the serializer *)

Module RoundTrip.






(** [parse(serialize(recipe))]: a new recipe from the serialized text. *)
Definition roundtrip (p : Parser) (r : Recipe) : JS.Completion Recipe :=
  Recipe_constructor p (Some (toCooklang r)).

(** A recipe with every falsy field made absent: a quantity that is [0],
    [-0], [NaN] or the empty text, empty units, an empty synonym. *)
Definition normalize_quantity (q : option Quantity) : option Quantity :=
  if truthy_quantity q then q else None.

Definition normalize_string (s : option string) : option string :=
  if JS.truthy_opt_string s then s else None.

Definition normalize_item (item : StepItem) : StepItem :=
  match item with
  | Text value => Text value
  | Item type name quantity units =>
      Item type name (normalize_quantity quantity) (normalize_string units)
  end.

Definition normalize_shopping_item (x : ShoppingItem) : ShoppingItem :=
  {| name := name x; synonym := normalize_string (synonym x) |}.

Definition normalize (r : Recipe) : Recipe :=
  {| metadata := metadata r;
     steps := map (map normalize_item) (steps r);
     shoppingList :=
       map (fun entry : string * list ShoppingItem =>
              (fst entry, map normalize_shopping_item (snd entry)))
           (shoppingList r);
     parser := parser r |}.

End RoundTrip.

(** ** A step item inside a recipe *)

(** Everything of a recipe but one step item: the steps before and after
    the step of the item, and the items before and after it in that step. *)
Record ItemContext : Type := {
  ctx_metadata : Metadata;
  ctx_steps_before : list Step;
  ctx_items_before : list StepItem;
  ctx_items_after : list StepItem;
  ctx_steps_after : list Step;
  ctx_shoppingList : ShoppingList;
  ctx_parser : Parser
}.

Definition place (c : ItemContext) (item : StepItem) : Recipe :=
  {| metadata := ctx_metadata c;
     steps := (ctx_steps_before c
               ++ (ctx_items_before c ++ item :: ctx_items_after c)
               :: ctx_steps_after c)%list;
     shoppingList := ctx_shoppingList c;
     parser := ctx_parser c |}.

(** ** Objects used as maps *)

(** The array index a property key denotes, if any: the decimal numeral of
    an integer from [0] to [2^32 - 2] without leading zero.  Such keys are
    enumerated first, in ascending order; the other keys follow in the order
    in which they were created. *)
Definition array_index (key : string) : option Z :=
  match key with
  | String "0" (String _ _) => None
  | _ =>
      match QuantityReader.natural key with
      | Some n => if (n <? 2 ^ 32 - 1)%Z then Some n else None
      | None => None
      end
  end.

Section ObjectAsMap.

Variable V : Type.

Definition lookup (key : string) (o : list (string * V)) : option V :=
  option_map snd (find (fun entry => String.eqb (fst entry) key) o).

(** The object with the value of the existing property [key] replaced. *)
Fixpoint replace_value (key : string) (v : V) (o : list (string * V))
  : option (list (string * V)) :=
  match o with
  | [] => None
  | entry :: o' =>
      if String.eqb (fst entry) key then Some ((key, v) :: o')
      else option_map (cons entry) (replace_value key v o')
  end.

(** A new property whose key is the array index [n]. *)
Fixpoint insert_index (n : Z) (key : string) (v : V) (o : list (string * V))
  : list (string * V) :=
  match o with
  | [] => [(key, v)]
  | entry :: o' =>
      match array_index (fst entry) with
      | Some m =>
          if (m <? n)%Z then entry :: insert_index n key v o'
          else (key, v) :: o
      | None => (key, v) :: o
      end
  end.

(** The assignment [o[key] = v]: an existing property keeps its place, a
    new one is enumerated among the array indices or after every other
    property. *)
Definition Object_set (o : list (string * V)) (key : string) (v : V)
  : list (string * V) :=
  match replace_value key v o with
  | Some o' => o'
  | None =>
      match array_index key with
      | Some n => insert_index n key v o
      | None => (o ++ [(key, v)])%list
      end
  end.

End ObjectAsMap.

Arguments lookup {V} key o.
Arguments replace_value {V} key v o.
Arguments insert_index {V} n key v o.
Arguments Object_set {V} o key v.

(** ** The Document Parser *)

Module SpecParser.

(** Modelled from the spec: what the specification leaves unnamed in the
    notation that [src/Parser.ts], which is not among the sources, reads:
    the marker of a line comment, the pair of markers around a block
    comment (section 4.1), the test for the start marker of the
    shopping-list section (section 4.6) and the test for a line indented or
    prefixed as an item of that section, which gives the text of the item
    (section 4.5).  The lead marker [>>] of a header line, the sigils, the
    braces, [%] and the synonym separator are the ones the specification
    and [index.ts] write. *)
Record Syntax : Type := {
  line_comment : string;
  block_open : string;
  block_close : string;
  section_start : string -> bool;
  item_line : string -> option string
}.

(** *** The Comment Stripper (section 4.1) *)

Inductive Mode : Type := Code | LineComment | BlockComment.

(** Modelled from the spec: the Comment Stripper of [src/Parser.ts] (not
    among the sources), one character at a time.  [skip] counts the
    characters of a marker still to be passed over.  Outside a comment a
    block-open marker starts a block comment and a line-comment marker a
    line comment, and every other character is kept; a line comment ends
    before the line feed, which is kept; inside a block comment only the
    closing marker is looked for, so that an unterminated block comment
    runs to the end of the input. *)
Fixpoint strip (syn : Syntax) (mode : Mode) (skip : nat) (s : string) : string :=
  match s with
  | EmptyString => ""
  | String c s' =>
      match skip with
      | S k => strip syn mode k s'
      | O =>
          match mode with
          | Code =>
              if prefix (block_open syn) s
              then strip syn BlockComment (String.length (block_open syn) - 1) s'
              else if prefix (line_comment syn) s
              then strip syn LineComment (String.length (line_comment syn) - 1) s'
              else String c (strip syn Code 0 s')
          | LineComment =>
              if Ascii.eqb c "010" then String c (strip syn Code 0 s')
              else strip syn LineComment 0 s'
          | BlockComment =>
              if prefix (block_close syn) s
              then strip syn Code (String.length (block_close syn) - 1) s'
              else strip syn BlockComment 0 s'
          end
      end
  end.

Definition strip_comments (syn : Syntax) (source : string) : string :=
  strip syn Code 0 source.

(** *** The Metadata Line Reader (section 4.2) *)

(** A blank line: nothing but white space. *)
Definition blank (line : string) : bool :=
  match QuantityReader.trim line with
  | EmptyString => true
  | _ => false
  end.

Fixpoint drop (n : nat) (s : string) : string :=
  match n, s with
  | S n', String _ s' => drop n' s'
  | _, _ => s
  end.

(** Modelled from the spec: the Metadata Line Reader of [src/Parser.ts]
    (not among the sources).  A header line is the lead marker [>>] at the
    start of the line, followed by a key and a value separated by the first
    colon; key and value are trimmed.  Any other line is not a metadata
    line. *)
Definition read_metadata_line (line : string) : option (string * string) :=
  if prefix ">>" line then
    match QuantityReader.split_at ":" (drop 2 line) with
    | Some (key, value) => Some (QuantityReader.trim key, QuantityReader.trim value)
    | None => None
    end
  else None.

(** *** The Inline Item Scanner (section 4.4) *)

Definition sigil_type (c : ascii) : option ItemType :=
  if Ascii.eqb c "@" then Some ingredient
  else if Ascii.eqb c "#" then Some cookware
  else if Ascii.eqb c "~" then Some timer
  else None.

(** The punctuation of ASCII. *)
Definition is_punctuation (c : ascii) : bool :=
  let n := nat_of_ascii c in
  (((33 <=? n) && (n <=? 47)) || ((58 <=? n) && (n <=? 64))
   || ((91 <=? n) && (n <=? 96)) || ((123 <=? n) && (n <=? 126)))%nat.

Definition is_word_char (c : ascii) : bool :=
  negb (QuantityReader.is_space c) && negb (is_punctuation c).

(** The run of word characters at the head of a text, and what follows. *)
Fixpoint word (s : string) : string * string :=
  match s with
  | EmptyString => ("", "")
  | String c s' =>
      if is_word_char c then let (w, rest) := word s' in (String c w, rest)
      else ("", s)
  end.

(** The braced form: a name up to the next brace opener, the slot up to the
    brace that closes it, and what follows. *)
Definition braced (after : string) : option (string * string * string) :=
  match QuantityReader.split_at "{" after with
  | Some (name, inside) =>
      match QuantityReader.split_at "}" inside with
      | Some (slot, rest) => Some (name, slot, rest)
      | None => None
      end
  | None => None
  end.

(** Modelled from the spec: the Inline Item Scanner of [src/Parser.ts] (not
    among the sources), on the text [after] a sigil.  When a brace pair
    follows, the name extends up to the brace opener (several words
    allowed, trimmed) and the content of the pair goes to the Quantity
    Expression Reader, for cookware as for the other items; sigils inside
    the name or the slot are literal data.  Otherwise the name is the run of
    characters that are neither white space nor punctuation, without
    quantity or units; this is also the form of an item whose brace opener
    is not closed on the line.  The result is the item and the text after
    what was consumed; there is none when neither form applies (no name
    follows the sigil), and the sigil is then literal text.  (Section 4.4
    words the first case as a brace opener immediately following the sigil;
    the example [@frozen mixed berries{1,5%cups}] of section 8 shows that
    the opener follows the name.) *)
Definition read_item (type : ItemType) (after : string)
  : option (StepItem * string) :=
  match braced after with
  | Some (name, slot, rest) =>
      let (quantity, units) := QuantityReader.readSlot slot in
      Some (Item type (QuantityReader.trim name) quantity units, rest)
  | None =>
      match word after with
      | (EmptyString, _) => None
      | (name, rest) => Some (Item type name None None, rest)
      end
  end.

(** A literal run of text, when there is one, before the items that
    follow. *)
Definition flush (text : string) (items : list StepItem) : list StepItem :=
  match text with
  | EmptyString => items
  | _ => Text text :: items
  end.

(** Modelled from the spec: the scan of a line of step text from left to
    right (section 4.6, rule 4; [src/Parser.ts] is not among the sources).
    [text] is the literal run read so far and [line] what is left of the
    line after the cursor; a sigil hands off to the Inline Item Scanner,
    which moves the cursor.  Each round takes one unit of [fuel]; there is
    no result when it runs out. *)
Fixpoint scan (fuel : nat) (text : string) (line : string)
  : option (list StepItem) :=
  match fuel with
  | O => None
  | S fuel' =>
      match line with
      | EmptyString => Some (flush text [])
      | String c after =>
          match sigil_type c with
          | Some type =>
              match read_item type after with
              | Some (item, rest) =>
                  option_map (fun items => flush text (item :: items))
                    (scan fuel' "" rest)
              | None => scan fuel' (text ++ String c "") after
              end
          | None => scan fuel' (text ++ String c "") after
          end
      end
  end.

Definition scan_line (line : string) : option (list StepItem) :=
  scan (S (String.length line)) "" line.

(** *** The Shopping List Block Reader (section 4.5) *)

(** An item line: the name, and the synonym after the separator [|]. *)
Definition read_shopping_item (text : string) : ShoppingItem :=
  match QuantityReader.split_at "|" text with
  | Some (n, s) =>
      {| name := QuantityReader.trim n; synonym := Some (QuantityReader.trim s) |}
  | None => {| name := QuantityReader.trim text; synonym := None |}
  end.

Definition add_item (l : ShoppingList) (category : string) (x : ShoppingItem)
  : ShoppingList :=
  Object_set l category
    (match lookup category l with
     | Some items => items ++ [x]
     | None => [x]
     end)%list.

(** Modelled from the spec: the Shopping List Block Reader of
    [src/Parser.ts] (not among the sources) on one line of the section,
    from the list and the current category to the new ones.  A blank line
    changes nothing; an item line adds an item to the current category (it
    is dropped when no category was opened); any other line is a category
    header, which creates the category, empty, under its trimmed text. *)
Definition read_shopping_line (syn : Syntax)
  (l : ShoppingList) (category : option string) (line : string)
  : ShoppingList * option string :=
  if blank line then (l, category)
  else match item_line syn line with
       | Some text =>
           match category with
           | Some c => (add_item l c (read_shopping_item text), category)
           | None => (l, category)
           end
       | None =>
           (Object_set l (QuantityReader.trim line) [],
            Some (QuantityReader.trim line))
       end.

(** *** The Document Parser (section 4.6) *)

(** The state of the parser between two lines: what was read so far, the
    items of the paragraph that is being read, and whether the
    shopping-list section was entered. *)
Record State : Type := {
  st_metadata : Metadata;
  st_steps : list Step;
  st_paragraph : list StepItem;
  st_in_section : bool;
  st_shoppingList : ShoppingList;
  st_category : option string
}.

Definition start : State :=
  {| st_metadata := []; st_steps := []; st_paragraph := [];
     st_in_section := false; st_shoppingList := []; st_category := None |}.

(** The paragraph that is being read, if any, becomes a step. *)
Definition end_paragraph (st : State) : State :=
  match st_paragraph st with
  | [] => st
  | items =>
      {| st_metadata := st_metadata st;
         st_steps := (st_steps st ++ [items])%list;
         st_paragraph := [];
         st_in_section := st_in_section st;
         st_shoppingList := st_shoppingList st;
         st_category := st_category st |}
  end.

Definition record_metadata (st : State) (key value : string) : State :=
  {| st_metadata := Object_set (st_metadata st) key value;
     st_steps := st_steps st;
     st_paragraph := st_paragraph st;
     st_in_section := st_in_section st;
     st_shoppingList := st_shoppingList st;
     st_category := st_category st |}.

Definition enter_section (st : State) : State :=
  {| st_metadata := st_metadata st;
     st_steps := st_steps st;
     st_paragraph := st_paragraph st;
     st_in_section := true;
     st_shoppingList := st_shoppingList st;
     st_category := st_category st |}.

Definition add_items (st : State) (items : list StepItem) : State :=
  {| st_metadata := st_metadata st;
     st_steps := st_steps st;
     st_paragraph := (st_paragraph st ++ items)%list;
     st_in_section := st_in_section st;
     st_shoppingList := st_shoppingList st;
     st_category := st_category st |}.

Definition in_section (syn : Syntax) (st : State) (line : string) : State :=
  let (l, category) :=
    read_shopping_line syn (st_shoppingList st) (st_category st) line in
  {| st_metadata := st_metadata st;
     st_steps := st_steps st;
     st_paragraph := st_paragraph st;
     st_in_section := true;
     st_shoppingList := l;
     st_category := category |}.

(** Modelled from the spec: the transition of the Document Parser of
    [src/Parser.ts] (not among the sources) on one line, after comment
    stripping.  Inside the shopping-list section every line goes to the
    Shopping List Block Reader.  Outside it, in the order of section 4.6: a
    blank line ends the paragraph; a metadata line is recorded, and leaves
    the paragraph as it is; the start marker of the shopping-list section
    ends the paragraph and enters the section; any other line is step text,
    whose items are added to those of the paragraph (the line break between
    two lines of a paragraph leaves no item). *)
Definition read_line (syn : Syntax) (st : State) (line : string) : option State :=
  if st_in_section st then Some (in_section syn st line)
  else if blank line then Some (end_paragraph st)
  else match read_metadata_line line with
       | Some (key, value) => Some (record_metadata st key value)
       | None =>
           if section_start syn line then Some (enter_section (end_paragraph st))
           else option_map (add_items st) (scan_line line)
       end.

Fixpoint read_lines (syn : Syntax) (st : State) (ls : list string) : option State :=
  match ls with
  | [] => Some st
  | line :: ls' =>
      match read_line syn st line with
      | Some st' => read_lines syn st' ls'
      | None => None
      end
  end.

Definition result (st : State) : ParseResult.t :=
  {| ParseResult.metadata := st_metadata st;
     ParseResult.steps := st_steps st;
     ParseResult.shoppingList := st_shoppingList st |}.

(** Modelled from the spec: [Parser.parse] of [src/Parser.ts] (not among the
    sources): the comments are stripped once, then the lines are read in
    order from the start state, and the end of the input ends the last
    paragraph.  The call throws only if a scan runs out of fuel, which
    [scan_line] gives enough of. *)
Definition parse (syn : Syntax) (source : string) : JS.Completion ParseResult.t :=
  match read_lines syn start (lines (strip_comments syn source)) with
  | Some st => JS.Normal (result (end_paragraph st))
  | None => JS.Throw "RangeError"
  end.

Definition parser (syn : Syntax) : Parser := Build_Parser (parse syn).

(** The source holds no comment and no line that starts the shopping-list
    section. *)
Definition plain (syn : Syntax) (source : string) : bool :=
  String.eqb (strip_comments syn source) source
  && forallb (fun line => negb (section_start syn line)) (lines source).

End SpecParser.

(** ** Sample inputs *)

Module Sample.

(** A parser that always throws. *)
Definition throwing_Parser : Parser :=
  {| parse := fun _ => JS.Throw "TypeError" |}.

Definition one_item (p : Parser) (item : StepItem) : Recipe :=
  {| metadata := []; steps := [[item]]; shoppingList := []; parser := p |}.

Definition zero : JS.number := JS.of_Z 0.

(** The binary64 numbers [0.5 = 2^52 * 2^-53], [1.5 = 3 * 2^51 * 2^-52] and
    [2 = 2^52 * 2^-51]. *)
Definition one_half : JS.number := S754_finite false (2 ^ 52) (-53).
Definition three_halves : JS.number := S754_finite false (3 * 2 ^ 51) (-52).
Definition two : JS.number := S754_finite false (2 ^ 52) (-51).
Definition salt_zero : StepItem := Item ingredient "salt" (Some (QNumber zero)) None.
Definition banana : StepItem := Item ingredient "banana" None None.

(** [{ step: -1 }], [{ step: 1.5 }], [{ extension: "" }] and
    [{ extension: "jpg", step: 2 }]. *)
Definition negative_step : ImageURLOptions :=
  {| step := Some (JS.of_Z (-1)); extension := None |}.
Definition fractional_step : ImageURLOptions :=
  {| step := Some (JS.div (JS.of_Z 3) (JS.of_Z 2)); extension := None |}.
Definition empty_extension : ImageURLOptions :=
  {| step := None; extension := Some "" |}.
Definition jpg_step_2 : ImageURLOptions :=
  {| step := Some (JS.of_Z 2); extension := Some "jpg" |}.
Definition png_step_1 : ImageURLOptions :=
  {| step := Some (JS.of_Z 1); extension := Some "png" |}.

(** A smoothie with metadata and two steps, quantities numeric or absent. *)
Definition smoothie : Recipe :=
  {| metadata :=
       [("source", "https://www.dinneratthezoo.com/wprm_print/6796");
        ("total time", "6 minutes");
        ("servings", "2")];
     steps :=
       [[Text "Place the ";
         Item ingredient "apple juice" (Some (QNumber three_halves)) (Some "cups");
         Text ", ";
         Item ingredient "banana" (Some (QNumber (JS.of_Z 1))) None;
         Text " and ";
         Item ingredient "vanilla greek yogurt"
           (Some (QNumber (JS.div (JS.of_Z 3) (JS.of_Z 4)))) (Some "cup");
         Text " in a ";
         Item cookware "blender" None None;
         Text "; blend for ";
         Item timer "" (Some (QNumber two)) (Some "minutes");
         Text "."];
        [Text "Taste and add ";
         Item ingredient "honey" None None;
         Text " if desired."]];
     shoppingList := [];
     parser := throwing_Parser |}.

(** A recipe with a quantity that is text, and two text items in a row. *)
Definition sliced : Recipe :=
  {| metadata := [("total time", "6 minutes")];
     steps :=
       [[Text "Add "; Text "the ";
         Item ingredient "banana" (Some (QString "one sliced")) None;
         Text " to the ";
         Item cookware "blender" None None;
         Text "."];
        [Text "Blend."]];
     shoppingList := [];
     parser := throwing_Parser |}.

(** A recipe with one metadata entry, one step and one shopping-list
    category. *)
Definition three_sections : Recipe :=
  {| metadata := [("servings", "2")];
     steps := [[Text "Boil the water."]];
     shoppingList := [("produce", [{| name := "apple"; synonym := None |}])];
     parser := throwing_Parser |}.

(** Markers for what the specification leaves unnamed: the comment markers
    of the Cooklang specification the README refers to, a section start
    line and a dash before the items of the shopping list. *)
Definition syntax : SpecParser.Syntax :=
  {| SpecParser.line_comment := "--";
     SpecParser.block_open := "[-";
     SpecParser.block_close := "-]";
     SpecParser.section_start := String.eqb "[shopping list]";
     SpecParser.item_line :=
       fun line =>
         if prefix "- " line then Some (SpecParser.drop 2 line) else None |}.

(** The source of the README. *)
Definition readme : string :=
  JS.LF
  ++ ">> source: https://www.dinneratthezoo.com/wprm_print/6796" ++ JS.LF
  ++ ">> total time: 6 minutes" ++ JS.LF
  ++ ">> servings: 2" ++ JS.LF
  ++ JS.LF
  ++ "Place the @apple juice{1,5%cups}, @banana{one sliced}, @frozen mixed berries{1,5%cups} and @vanilla greek yogurt{3/4%cup} in a #blender{}; blend until smooth. If the smoothie seems too thick, add a little more liquid (1/4 cup). "
  ++ JS.LF
  ++ JS.LF
  ++ "Taste and add @honey{} if desired. Pour into two glasses and garnish with fresh berries and mint sprigs if desired."
  ++ JS.LF.

(** Sources with an unmatched brace, an unterminated block comment, a
    comment on each of two lines, and a shopping-list section. *)
Definition unmatched_brace : string := "Add @salt{ to taste".

Definition unterminated_comment : string :=
  "Boil the #pot{} of water. [- never" ++ JS.LF ++ "closed @salt{}".

Definition commented : string :=
  "Mash the @potato{2%kg} -- by hand" ++ JS.LF
  ++ "until [- quite -] smooth." ++ JS.LF
  ++ JS.LF
  ++ ">> servings: 2" ++ JS.LF
  ++ "Serve with @butter{} and ~{5%minutes} of patience." ++ JS.LF
  ++ ">> servings: 4".

Definition with_shopping_list : string :=
  "Slice the @bell pepper{1}." ++ JS.LF
  ++ "[shopping list]" ++ JS.LF
  ++ "produce" ++ JS.LF
  ++ "- bell pepper | capsicum" ++ JS.LF
  ++ JS.LF
  ++ "- apple" ++ JS.LF
  ++ "dairy".

End Sample.

(** ** Recipes the parser reads back *)

Module WellFormed.

Fixpoint all_chars (ok : ascii -> bool) (s : string) : bool :=
  match s with
  | EmptyString => true
  | String c s' => ok c && all_chars ok s'
  end.

(** No character of [s] is one of [cs]. *)
Definition free_of (cs : list ascii) (s : string) : bool :=
  all_chars (fun c => negb (existsb (Ascii.eqb c) cs)) s.

Definition LF : ascii := "010"%char.

(** A string without white space at either end. *)
Definition trimmed (s : string) : bool := String.eqb (QuantityReader.trim s) s.

(** A text item is not empty and contains neither a sigil nor a line
    feed. *)
Definition text (value : string) : bool :=
  JS.truthy_string value && free_of ["@"; "#"; "~"; LF]%char value.

(** A number that is written ([0], [-0] and [NaN] are not) and whose decimal
    text the Quantity Expression Reader reads as the same number. *)
Definition number (n : JS.number) : bool :=
  JS.truthy_number n
  && match QuantityReader.readQuantity (JS.Number_toString n) with
     | Some (QNumber m) => JS.same_number m n
     | _ => false
     end.

(** A quantity is absent or a number as above. *)
Definition quantity (q : option Quantity) : bool :=
  match q with
  | None => true
  | Some (QNumber n) => number n
  | Some (QString _) => false
  end.

(** Units are absent, or not empty and without closing brace or line
    feed. *)
Definition units (u : option string) : bool :=
  match u with
  | None => true
  | Some u' => JS.truthy_string u' && free_of ["}"; LF]%char u'
  end.

(** An item that is not text: the name is trimmed and contains neither an
    opening brace nor a line feed, and quantity and units are as above. *)
Definition item (i : StepItem) : bool :=
  match i with
  | Text value => text value
  | Item _ name q u =>
      trimmed name && free_of ["{"; LF]%char name && quantity q && units u
  end.

(** No text item is directly followed by another text item. *)
Fixpoint separated (step : Step) : bool :=
  match step with
  | Text _ :: ((Text _ :: _) as rest) => false
  | _ :: rest => separated rest
  | [] => true
  end.

(** The line a step is written on is not blank and does not begin with the
    lead marker of a metadata line. *)
Definition step_line (line : string) : bool :=
  negb (SpecParser.blank line) && negb (prefix ">>" line).

Definition step (s : Step) : bool :=
  forallb item s && separated s && step_line (step_text s).

(** A metadata key and value are trimmed and without line feed, and the key
    contains no colon and is not an array index. *)
Definition entry (kv : string * string) : bool :=
  trimmed (fst kv) && trimmed (snd kv)
  && free_of [":"; LF]%char (fst kv) && free_of [LF] (snd kv)
  && match array_index (fst kv) with
     | None => true
     | Some _ => false
     end.

(** No two entries have the same key. *)
Fixpoint distinct_keys (m : Metadata) : bool :=
  match m with
  | [] => true
  | kv :: m' =>
      negb (existsb (fun e : string * string => String.eqb (fst e) (fst kv)) m')
      && distinct_keys m'
  end.

Definition recipe (r : Recipe) : bool :=
  forallb entry (metadata r)
  && distinct_keys (metadata r)
  && forallb step (steps r)
  && match shoppingList r with [] => true | _ => false end.

End WellFormed.

(** A text that can stand between the braces before the units: it has no
    [%], no closing brace and no line feed. *)
Definition slot_safe : string -> bool :=
  WellFormed.free_of ["%"; "}"; WellFormed.LF]%char.

(** ** Other places of the items of a step *)

(** Two items, one after the other, and no item at all, in the place a
    context leaves open. *)
Definition place_two (c : ItemContext) (i j : StepItem) : Recipe :=
  {| metadata := ctx_metadata c;
     steps := (ctx_steps_before c
               ++ (ctx_items_before c ++ i :: j :: ctx_items_after c)
               :: ctx_steps_after c)%list;
     shoppingList := ctx_shoppingList c;
     parser := ctx_parser c |}.

Definition place_none (c : ItemContext) : Recipe :=
  {| metadata := ctx_metadata c;
     steps := (ctx_steps_before c
               ++ (ctx_items_before c ++ ctx_items_after c)
               :: ctx_steps_after c)%list;
     shoppingList := ctx_shoppingList c;
     parser := ctx_parser c |}.

(** ** Lines and characters of a text *)

(** How often a character occurs in a string. *)
Fixpoint occurrences (c : ascii) (s : string) : nat :=
  match s with
  | EmptyString => 0
  | String d s' => (if Ascii.eqb d c then 1 else 0) + occurrences c s'
  end.

(** A string without line feed. *)
Definition single_line (s : string) : bool :=
  WellFormed.free_of [WellFormed.LF] s.

Definition single_line_entry (kv : string * string) : bool :=
  single_line (fst kv) && single_line (snd kv).

(** The text written for a step has no line feed and is not empty. *)
Definition one_line_step (step : Step) : bool :=
  single_line (step_text step) && JS.truthy_string (step_text step).

Definition single_line_category (entry : string * list ShoppingItem) : bool :=
  single_line (fst entry)
  && forallb (fun x => single_line (shopping_item x)) (snd entry).

(** The lines a category of the shopping list is written on. *)
Definition category_lines (entry : string * list ShoppingItem) : list string :=
  fst entry :: match snd entry with
               | [] => [""]
               | items => map shopping_item items
               end.

(** Blocks of lines with one empty line between two blocks; no block at all
    is one empty line. *)
Fixpoint blocks (l : list (list string)) : list string :=
  match l with
  | [] => [""]
  | [b] => b
  | b :: l' => b ++ "" :: blocks l'
  end.

(** A shopping list with a category of two items and an empty category. *)
Definition groceries : ShoppingList :=
  [("produce", [{| name := "bell pepper"; synonym := Some "capsicum" |};
                {| name := "apple"; synonym := None |}]);
   ("dairy", [])].

(** A string without control character (a code below 32). *)
Definition no_control (s : string) : bool :=
  WellFormed.all_chars (fun c => (32 <=? nat_of_ascii c)%nat) s.

(** * Properties *)

(** ** Strings and loops *)

Lemma append_nil_r (s : string) : s ++ "" = s.
Proof. induction s as [|c s IH]; simpl; [reflexivity | now rewrite IH]. Qed.

Lemma append_assoc (a b c : string) : (a ++ b) ++ c = a ++ (b ++ c).
Proof. induction a as [|x a IH]; simpl; [reflexivity | now rewrite IH]. Qed.

Lemma length_append (a b : string) :
  String.length (a ++ b) = String.length a + String.length b.
Proof. induction a as [|c a IH]; simpl; [reflexivity | now rewrite IH]. Qed.

Lemma concat_empty_cons (x : string) (l : list string) :
  String.concat "" (x :: l) = x ++ String.concat "" l.
Proof.
  destruct l as [|y l]; simpl.
  - now rewrite append_nil_r.
  - reflexivity.
Qed.

(** One turn of the inner loop appends the text of the item. *)
Lemma item_body_text (stepStr : string) (item : StepItem) :
  item_body stepStr item = stepStr ++ item_text item.
Proof.
  destruct item as [value | type name quantity units]; [reflexivity|].
  unfold item_body, item_text, quantity_text, units_text.
  destruct type, quantity as [q|], units as [u|]; simpl sigil;
    repeat match goal with
           | |- context [if ?b then _ else _] => destruct b
           end;
    repeat rewrite append_assoc; simpl; repeat rewrite append_nil_r;
    reflexivity.
Qed.

Lemma item_loop_text (step : Step) (stepStr : string) :
  fold_left item_body step stepStr = stepStr ++ step_text step.
Proof.
  revert stepStr; induction step as [|item step IH]; intros stepStr.
  - simpl. now rewrite append_nil_r.
  - simpl fold_left. rewrite IH, item_body_text, append_assoc.
    unfold step_text. simpl map. now rewrite concat_empty_cons.
Qed.

Ltac name_loop_body body :=
  match goal with
  | |- fold_left ?f _ _ = _ => set (body := f)
  end.

Lemma steps_loop_text (l : list Step) : steps_loop l = map step_text l.
Proof.
  unfold steps_loop. name_loop_body body.
  assert (G : forall acc : list string,
             fold_left body l acc = (acc ++ map step_text l)%list).
  { induction l as [|step l IH]; intros acc; simpl fold_left.
    - simpl. now rewrite app_nil_r.
    - rewrite IH. unfold body. rewrite item_loop_text.
      simpl. now rewrite <- app_assoc. }
  apply (G []).
Qed.

Lemma metadata_loop_text (m : Metadata) : metadata_loop m = metadata_text m.
Proof.
  unfold metadata_loop. name_loop_body body.
  assert (G : forall acc : string,
             fold_left body m acc = acc ++ metadata_text m).
  { induction m as [|[key value] m IH]; intros acc; simpl fold_left.
    - simpl. now rewrite append_nil_r.
    - rewrite IH. unfold body. rewrite append_assoc.
      unfold metadata_text. simpl map. now rewrite concat_empty_cons. }
  apply (G "").
Qed.

Lemma shoppingList_loop_text (l : ShoppingList) :
  shoppingList_loop l = map category_text l.
Proof.
  unfold shoppingList_loop. name_loop_body body.
  assert (G : forall acc : list string,
             fold_left body l acc = (acc ++ map category_text l)%list).
  { induction l as [|[category items] l IH]; intros acc; simpl fold_left.
    - simpl. now rewrite app_nil_r.
    - rewrite IH. unfold body. simpl map. rewrite <- app_assoc.
      simpl app. unfold category_text at 2. simpl fst. simpl snd.
      now rewrite append_assoc. }
  apply (G []).
Qed.

(** The text [toCooklang] returns. *)
Lemma toCooklang_text (r : Recipe) :
  toCooklang r
  = metadata_text (metadata r) ++ JS.LF
    ++ JS.join (JS.LF ++ JS.LF) (map step_text (steps r)) ++ JS.LF
    ++ JS.join (JS.LF ++ JS.LF) (map category_text (shoppingList r)).
Proof.
  unfold toCooklang.
  now rewrite metadata_loop_text, steps_loop_text, shoppingList_loop_text.
Qed.

(** ** The constructor *)

(** Without a source, or with the empty string, the parser is not called. *)
Lemma Recipe_constructor_empty (new_Parser : Parser) :
  Recipe_constructor new_Parser None = JS.Normal (Recipe_init new_Parser)
  /\ Recipe_constructor new_Parser (Some "") = JS.Normal (Recipe_init new_Parser).
Proof. split; reflexivity. Qed.

(** With a non-empty source the recipe holds what the parser returned. *)
Lemma Recipe_constructor_parsed (new_Parser : Parser) (c : ascii) (src : string) :
  Recipe_constructor new_Parser (Some (String c src))
  = JS.bind (parse new_Parser (String c src))
      (fun result => JS.Normal (Object_assign (Recipe_init new_Parser) result)).
Proof. reflexivity. Qed.

(** What the parser throws, the constructor throws. *)
Lemma Recipe_constructor_propagates :
  Recipe_constructor Sample.throwing_Parser (Some "Add @salt{")
  = JS.Throw "TypeError".
Proof. reflexivity. Qed.

(** A parser that returns on every non-empty source makes the constructor
    return on every source. *)
Lemma Recipe_constructor_of_total_parser (new_Parser : Parser) :
  (forall source : string,
      source <> "" -> exists result, parse new_Parser source = JS.Normal result) ->
  forall source : option string,
  exists recipe : Recipe,
    Recipe_constructor new_Parser source = JS.Normal recipe
    /\ forall e, Recipe_constructor new_Parser source <> JS.Throw e.
Proof.
  intros total [[|c src]|].
  - exists (Recipe_init new_Parser). split; [reflexivity | discriminate].
  - destruct (total (String c src)) as [result E]; [discriminate|].
    exists (Object_assign (Recipe_init new_Parser) result).
    rewrite Recipe_constructor_parsed, E. split; [reflexivity | discriminate].
  - exists (Recipe_init new_Parser). split; [reflexivity | discriminate].
Qed.

(** ** The round trip *)

Lemma normalize_item_text (item : StepItem) :
  item_text (RoundTrip.normalize_item item) = item_text item.
Proof.
  destruct item as [value | type name [[n|s]|] [u|]]; try reflexivity;
    unfold RoundTrip.normalize_item, RoundTrip.normalize_quantity,
      RoundTrip.normalize_string, item_text, quantity_text, units_text;
    repeat match goal with
           | |- context [truthy_quantity ?q] => destruct (truthy_quantity q) eqn:?
           | |- context [JS.truthy_opt_string ?q] =>
               destruct (JS.truthy_opt_string q) eqn:?
           | |- context [JS.truthy_string ?q] => destruct (JS.truthy_string q) eqn:?
           end;
    simpl in *; try congruence; reflexivity.
Qed.

Lemma normalize_shopping_item_text (x : ShoppingItem) :
  shopping_item (RoundTrip.normalize_shopping_item x) = shopping_item x.
Proof.
  destruct x as [n [[|c s]|]]; reflexivity.
Qed.

Lemma normalize_toCooklang (r : Recipe) :
  toCooklang (RoundTrip.normalize r) = toCooklang r.
Proof.
  rewrite !toCooklang_text. unfold RoundTrip.normalize. simpl.
  rewrite !map_map. f_equal. f_equal. f_equal.
  - f_equal. apply map_ext. intros step. unfold step_text. rewrite map_map.
    f_equal. apply map_ext. exact normalize_item_text.
  - f_equal. f_equal. apply map_ext. intros [category items].
    unfold category_text. simpl. rewrite map_map. do 3 f_equal.
    apply map_ext. exact normalize_shopping_item_text.
Qed.



(** X3. Whatever the parser, [parse(serialize(recipe))] depends on the recipe
    only through the text the serializer writes, and that text does not tell
    a falsy field from an absent one: a recipe and the same recipe with every
    quantity that is [0], [-0], [NaN] or the empty text, every empty units
    string and every empty synonym made absent are serialized to the same
    text and give the same round-trip result. *)
Lemma roundtrip_ignores_falsy_fields (p : Parser) (r : Recipe) :
  toCooklang (RoundTrip.normalize r) = toCooklang r
  /\ RoundTrip.roundtrip p (RoundTrip.normalize r) = RoundTrip.roundtrip p r.
Proof.
  split.
  - apply normalize_toCooklang.
  - unfold RoundTrip.roundtrip. now rewrite normalize_toCooklang.
Qed.

(** Outside the well-formed recipes the text is ambiguous in other ways
    too: a text item that spells an annotation, two text items in a row, an
    empty step, a line feed in a text, a brace in a name or in the units, a
    colon in a metadata key, a line feed in a metadata value. *)
Lemma serialized_text_collisions (p : Parser) :
  let recipe m l :=
    {| metadata := m; steps := l; shoppingList := []; parser := p |} in
  toCooklang (recipe [] [[Text "@salt{}"]])
  = toCooklang (recipe [] [[Item ingredient "salt" None None]])
  /\ toCooklang (recipe [] [[Text "Add "; Text "salt"]])
     = toCooklang (recipe [] [[Text "Add salt"]])
  /\ toCooklang (recipe [] [[]]) = toCooklang (recipe [] [])
  /\ toCooklang (recipe [] [[Text ("Boil." ++ JS.LF ++ JS.LF ++ "Serve.")]])
     = toCooklang (recipe [] [[Text "Boil."]; [Text "Serve."]])
  /\ toCooklang (recipe [] [[Item ingredient "a{%g}b" None None]])
     = toCooklang (recipe [] [[Item ingredient "a" None (Some "g"); Text "b{}"]])
  /\ toCooklang (recipe [] [[Item ingredient "a" None (Some "g}b")]])
     = toCooklang (recipe [] [[Item ingredient "a" None (Some "g"); Text "b}"]])
  /\ toCooklang (recipe [("a: b", "c")] [])
     = toCooklang (recipe [("a", "b: c")] [])
  /\ toCooklang (recipe [("a", "b" ++ JS.LF ++ ">> c: d")] [])
     = toCooklang (recipe [("a", "b"); ("c", "d")] []).
Proof. repeat split; reflexivity. Qed.

(** ** [getImageURL] *)

(** C3, as stated, fails: a negative step and a non-integer step are both
    formatted into the URL; nothing is rejected. *)
Lemma getImageURL_accepts_invalid_step :
  getImageURL "Soup" (Some Sample.negative_step) = JS.Normal "Soup.-1.png"
  /\ getImageURL "Soup" (Some Sample.fractional_step) = JS.Normal "Soup.1.5.png"
  /\ ~ Spec.rejects_invalid_step.
Proof.
  split; [vm_compute; reflexivity|].
  split; [vm_compute; reflexivity|].
  intros H.
  destruct (H "Soup" Sample.negative_step (JS.of_Z (-1)) eq_refl eq_refl)
    as [e E].
  discriminate E.
Qed.

(** C3, amended. [getImageURL] validates nothing.  A step that is negative
    or not an integer is not rejected: it is formatted into the URL like any
    other step (a [NaN] step, being falsy, is left out), and no call of
    [getImageURL] throws. *)
Theorem getImageURL_invalid_step_formatted
  (name : string) (options : ImageURLOptions) (n : JS.number) :
  step options = Some n ->
  (JS.isNegative n || negb (JS.isInteger n))%bool = true ->
  getImageURL name (Some options)
  = JS.Normal (name
               ++ (if JS.isNaN n then "" else "." ++ JS.Number_toString n)
               ++ "." ++ extension_or_png (Some options))
  /\ (forall (name' : string) (options' : option ImageURLOptions) (e : string),
         getImageURL name' options' <> JS.Throw e).
Proof.
  intros given invalid. split; [|discriminate].
  destruct options as [st ext]. simpl in given. subst st.
  unfold getImageURL, extension_or_png. simpl.
  destruct n as [s|s| |s m e]; try reflexivity.
  discriminate invalid.
Qed.

Lemma getImageURL_invalid_step_formatted_witness :
  step Sample.negative_step = Some (JS.of_Z (-1))
  /\ (JS.isNegative (JS.of_Z (-1)) || negb (JS.isInteger (JS.of_Z (-1))))%bool
     = true
  /\ getImageURL "Soup" (Some Sample.negative_step) = JS.Normal "Soup.-1.png".
Proof.
  split; [reflexivity|]. split; [reflexivity|].
  rewrite (proj1 (getImageURL_invalid_step_formatted
                    "Soup" Sample.negative_step (JS.of_Z (-1)) eq_refl eq_refl)).
  vm_compute. reflexivity.
Defined.

(** C4, as stated, fails when the extension is present but empty: the URL
    ends in [.png], not in a bare dot. *)
Lemma getImageURL_empty_extension :
  Sample.empty_extension.(extension) = Some ""
  /\ getImageURL "Soup" (Some Sample.empty_extension) = JS.Normal "Soup.png"
  /\ Spec.imageURL "Soup" (Some Sample.empty_extension) = "Soup."
  /\ getImageURL "Soup" (Some Sample.empty_extension)
     <> JS.Normal (Spec.imageURL "Soup" (Some Sample.empty_extension)).
Proof.
  repeat split; try reflexivity. discriminate.
Qed.

(** C4, amended. When the step, if present, is a positive integer,
    [getImageURL] returns [name + ('.' + step if step is given) + '.' +
    extension], where the extension is ["png"] when the option is absent or
    the empty string; in particular ["Baked Potato"] with extension ["jpg"]
    and step [2] gives ["Baked Potato.2.jpg"], and ["Soup"] without options
    gives ["Soup.png"]. *)
Theorem getImageURL_format (name : string) (options : option ImageURLOptions) :
  step_is_positive_integer options = true ->
  getImageURL name options
  = JS.Normal (name ++ step_segment options ++ "." ++ extension_or_png options)
  /\ getImageURL "Baked Potato" (Some Sample.jpg_step_2)
     = JS.Normal "Baked Potato.2.jpg"
  /\ getImageURL "Soup" None = JS.Normal "Soup.png".
Proof.
  intros valid. split; [|split; vm_compute; reflexivity].
  destruct options as [[[n|] ext]|]; try reflexivity.
  unfold getImageURL, step_segment, extension_or_png. simpl.
  unfold step_is_positive_integer, positive_integer in valid.
  apply andb_prop in valid. destruct valid as [positive integer].
  destruct n as [s|[|]| |[|] m e];
    try discriminate positive; try discriminate integer.
  reflexivity.
Qed.

Lemma getImageURL_format_witness :
  step_is_positive_integer (Some Sample.png_step_1) = true
  /\ getImageURL "Mixed Berry Smoothie" (Some Sample.png_step_1)
     = JS.Normal "Mixed Berry Smoothie.1.png".
Proof.
  split; [reflexivity|].
  rewrite (proj1 (getImageURL_format "Mixed Berry Smoothie"
                    (Some Sample.png_step_1) eq_refl)).
  vm_compute. reflexivity.
Defined.

(** The examples of the documentation. *)
Lemma getImageURL_examples :
  getImageURL "Baked Potato" (Some Sample.jpg_step_2)
  = JS.Normal "Baked Potato.2.jpg"
  /\ getImageURL "Mixed Berry Smoothie" (Some Sample.png_step_1)
     = JS.Normal "Mixed Berry Smoothie.1.png"
  /\ getImageURL "Soup" None = JS.Normal "Soup.png".
Proof. repeat split; vm_compute; reflexivity. Qed.

(** ** [toCooklang] *)

(** C5. The three sections are joined with a single line feed.  The
    metadata block ends in a line feed of its own, so an empty line follows
    it; the steps block does not, so the first category of the shopping list
    starts on the line right after the last step, with no empty line
    between them. *)
Theorem toCooklang_no_blank_line_before_shopping_list :
  (forall r : Recipe,
      toCooklang r
      = metadata_text (metadata r) ++ JS.LF
        ++ JS.join (JS.LF ++ JS.LF) (map step_text (steps r)) ++ JS.LF
        ++ JS.join (JS.LF ++ JS.LF) (map category_text (shoppingList r)))
  /\ toCooklang Sample.three_sections
     = ">> servings: 2" ++ JS.LF ++ JS.LF
       ++ "Boil the water." ++ JS.LF
       ++ "produce" ++ JS.LF ++ "apple"
  /\ lines (toCooklang Sample.three_sections)
     = [">> servings: 2"; ""; "Boil the water."; "produce"; "apple"].
Proof.
  split; [exact toCooklang_text|].
  split; reflexivity.
Qed.

Lemma spec_item_text_normalize (item : StepItem) :
  Spec.item_text (RoundTrip.normalize_item item) = item_text item.
Proof.
  destruct item as [value | type name [[n|s]|] [[|c u]|]]; try reflexivity;
    unfold RoundTrip.normalize_item, RoundTrip.normalize_quantity,
      Spec.item_text, item_text, quantity_text;
    match goal with
    | |- context [truthy_quantity ?q] => destruct (truthy_quantity q)
    end; reflexivity.
Qed.

Lemma spec_shopping_item_normalize (x : ShoppingItem) :
  Spec.shopping_item (RoundTrip.normalize_shopping_item x) = shopping_item x.
Proof. destruct x as [n [[|c s]|]]; reflexivity. Qed.

(** C6, as stated, fails: a quantity that is present but is the number [0]
    is not written between the braces. *)
Lemma toCooklang_zero_quantity_not_emitted :
  steps_loop [[Sample.salt_zero]] = ["@salt{}"]
  /\ map Spec.step_text [[Sample.salt_zero]] = ["@salt{0}"]
  /\ steps_loop [[Sample.salt_zero]] <> map Spec.step_text [[Sample.salt_zero]].
Proof. repeat split; try reflexivity. discriminate. Qed.

(** C6, amended. Each step is emitted as the concatenation of its items:
    text items verbatim, every other item as its sigil, its name and a brace
    pair containing the quantity if it is present and truthy (not [0], [NaN]
    or the empty text) and [%] with the units if they are present and not
    empty; consecutive steps are joined with an empty line.  Each category of
    the shopping list is emitted as its header line followed by one line per
    item: the name, or name, [|] and synonym when the synonym is present and
    not empty.  That is, the steps and the categories are written as the
    specification says for the recipe in which the falsy fields are absent. *)
Theorem toCooklang_emits (r : Recipe) :
  toCooklang r
  = JS.join JS.LF
      [metadata_text (metadata r);
       JS.join (JS.LF ++ JS.LF) (map step_text (steps r));
       JS.join (JS.LF ++ JS.LF) (map category_text (shoppingList r))]
  /\ map step_text (steps r)
     = map Spec.step_text (steps (RoundTrip.normalize r))
  /\ map category_text (shoppingList r)
     = map Spec.category_text (shoppingList (RoundTrip.normalize r)).
Proof.
  split; [|split].
  - unfold toCooklang.
    now rewrite metadata_loop_text, steps_loop_text, shoppingList_loop_text.
  - simpl. rewrite map_map. apply map_ext. intros step.
    unfold step_text, Spec.step_text. rewrite map_map. f_equal.
    apply map_ext. intros item. symmetry. apply spec_item_text_normalize.
  - simpl. rewrite map_map. apply map_ext. intros [category items].
    unfold category_text, Spec.category_text. simpl. rewrite map_map.
    do 3 f_equal. apply map_ext. intros x. symmetry.
    apply spec_shopping_item_normalize.
Qed.

(** Items with the same text can be exchanged anywhere in a recipe. *)
Lemma toCooklang_place (c : ItemContext) (i1 i2 : StepItem) :
  item_text i1 = item_text i2 ->
  toCooklang (place c i1) = toCooklang (place c i2).
Proof.
  intros E. rewrite !toCooklang_text. unfold place. simpl.
  rewrite !map_app. simpl map.
  assert (S : step_text (ctx_items_before c ++ i1 :: ctx_items_after c)%list
              = step_text (ctx_items_before c ++ i2 :: ctx_items_after c)%list).
  { unfold step_text. rewrite !map_app. simpl map. now rewrite E. }
  now rewrite S.
Qed.

(** C8. An item that is not text and has neither quantity nor units is
    emitted with an empty brace pair right after its name, as in
    [@banana{}]. *)
Theorem toCooklang_empty_brace_pair (type : ItemType) (name : string) :
  (forall stepStr : string,
      item_body stepStr (Item type name None None)
      = stepStr ++ sigil type ++ name ++ "{}")
  /\ (forall p : Parser,
         toCooklang (Sample.one_item p (Item type name None None))
         = JS.LF ++ sigil type ++ name ++ "{}" ++ JS.LF)
  /\ (forall p : Parser,
         toCooklang (Sample.one_item p Sample.banana)
         = JS.LF ++ "@banana{}" ++ JS.LF).
Proof.
  split; [|split].
  - intros stepStr. now rewrite item_body_text.
  - intros p. rewrite toCooklang_text. simpl.
    unfold step_text. simpl. now rewrite !append_assoc.
  - intros p. reflexivity.
Qed.

(** C9. A quantity whose numeric value is zero and a units string that is
    empty are omitted: wherever the item stands in a recipe, the recipe is
    serialized exactly as with that field absent. *)
Theorem toCooklang_omits_falsy_fields
  (c : ItemContext) (type : ItemType) (name : string)
  (quantity : option Quantity) (units : option string) (sign : bool) :
  toCooklang (place c (Item type name (Some (QNumber (S754_zero sign))) units))
  = toCooklang (place c (Item type name None units))
  /\ toCooklang (place c (Item type name quantity (Some "")))
     = toCooklang (place c (Item type name quantity None)).
Proof.
  split; apply toCooklang_place; reflexivity.
Qed.

(** ** The quantity grammar *)

(** The samples denote the real numbers 1/2, 3/2 and 2. *)
Lemma sample_values :
  (JS.Qvalue (2 ^ 52) (-53) == 1 # 2)%Q
  /\ (JS.Qvalue (3 * 2 ^ 51) (-52) == 3 # 2)%Q
  /\ (JS.Qvalue (2 ^ 52) (-51) == 2 # 1)%Q.
Proof. repeat split; vm_compute; reflexivity. Qed.

(** C7. The numeric rules are tried in order and the first that matches
    gives the value: ["1/2"] is the number 0.5, ["1,5"] the number 1.5,
    ["2"] the number 2, ["a pinch"] is kept as raw text, and the empty slot
    has no quantity. *)
Theorem quantity_grammar :
  QuantityReader.rules
  = [QuantityReader.fraction; QuantityReader.comma_decimal; QuantityReader.plain]
  /\ (forall rule rest text,
         QuantityReader.first_match (rule :: rest) text
         = match rule text with
           | Some n => Some n
           | None => QuantityReader.first_match rest text
           end)
  /\ QuantityReader.readSlot "1/2" = (Some (QNumber Sample.one_half), None)
  /\ QuantityReader.readSlot "1,5" = (Some (QNumber Sample.three_halves), None)
  /\ QuantityReader.readSlot "2" = (Some (QNumber Sample.two), None)
  /\ QuantityReader.readSlot "a pinch" = (Some (QString "a pinch"), None)
  /\ QuantityReader.readSlot "" = (None, None).
Proof.
  split; [reflexivity|].
  split; [intros rule rest text; reflexivity|].
  repeat split; vm_compute; reflexivity.
Qed.

(** ** Characters and lines *)

Section Characters.

Variable ok : ascii -> bool.

Lemma all_chars_app (a b : string) :
  WellFormed.all_chars ok (a ++ b)
  = WellFormed.all_chars ok a && WellFormed.all_chars ok b.
Proof.
  induction a as [|c a IH]; simpl; [reflexivity|].
  now rewrite IH, andb_assoc.
Qed.

Lemma all_chars_substring (s : string) (n m : nat) :
  WellFormed.all_chars ok s = true ->
  WellFormed.all_chars ok (substring n m s) = true.
Proof.
  revert n m; induction s as [|c s IH]; intros n m H.
  - destruct n, m; reflexivity.
  - simpl in H. apply andb_prop in H. destruct H as [Hc Hs].
    destruct n as [|n]; [destruct m as [|m]|]; simpl.
    + reflexivity.
    + now rewrite Hc, IH.
    + now apply IH.
Qed.

End Characters.


Lemma free_of_app (cs : list ascii) (a b : string) :
  WellFormed.free_of cs (a ++ b)
  = WellFormed.free_of cs a && WellFormed.free_of cs b.
Proof. apply all_chars_app. Qed.

Lemma free_of_head (c d : ascii) (s : string) :
  WellFormed.free_of [c] (String d s) = true ->
  Ascii.eqb d c = false /\ WellFormed.free_of [c] s = true.
Proof.
  unfold WellFormed.free_of. cbn [WellFormed.all_chars existsb]. intros H.
  apply andb_prop in H. destruct H as [Hd Hs]. split; [|exact Hs].
  rewrite orb_false_r in Hd. now apply negb_true_iff in Hd.
Qed.

(** *** The text of a number *)

Lemma string_of_uint_safe (d : Decimal.uint) :
  slot_safe (NilEmpty.string_of_uint d) = true.
Proof. induction d; simpl; try reflexivity; exact IHd. Qed.

Lemma digits_safe (z : Z) : slot_safe (JS.digits z) = true.
Proof. apply string_of_uint_safe. Qed.

Lemma digits_not_empty (z : Z) : JS.digits z <> "".
Proof.
  unfold JS.digits. destruct (Z.to_N z) as [|p]; simpl; [discriminate|].
  pose proof (DecimalPos.Unsigned.to_uint_nonnil p) as H.
  destruct (Pos.to_uint p); simpl; try discriminate. now elim H.
Qed.

Lemma zeros_safe (n : nat) : slot_safe (JS.zeros n) = true.
Proof. induction n; simpl; [reflexivity | exact IHn]. Qed.

Lemma append_not_empty_l (a b : string) : a <> "" -> a ++ b <> "".
Proof. destruct a; [congruence | discriminate]. Qed.

Lemma append_not_empty_r (a b : string) : b <> "" -> a ++ b <> "".
Proof. destruct a; simpl; [trivial | discriminate]. Qed.

Ltac safe_pieces :=
  unfold slot_safe in *;
  repeat rewrite free_of_app;
  repeat (apply andb_true_intro; split);
  try reflexivity;
  try apply digits_safe;
  try apply zeros_safe;
  try (apply all_chars_substring; apply digits_safe).

Lemma toString_finite_safe (m : positive) (e : Z) :
  slot_safe (JS.toString_finite m e) = true
  /\ JS.toString_finite m e <> "".
Proof.
  unfold JS.toString_finite.
  destruct (JS.shortest 17 m e (JS.magnitude 640 (JS.Qvalue m e) (-324)) 1)
    as [[n k] s].
  repeat match goal with
         | |- context [if ?b then _ else _] => destruct b
         end;
    (split;
     [ safe_pieces
     | first [ apply append_not_empty_l; apply digits_not_empty
             | apply append_not_empty_r; discriminate
             | discriminate ] ]).
Qed.

Lemma Number_toString_safe (x : JS.number) :
  slot_safe (JS.Number_toString x) = true /\ JS.Number_toString x <> "".
Proof.
  destruct x as [s|[|]| |[|] m e]; simpl;
    try (split; [reflexivity | discriminate]);
    destruct (toString_finite_safe m e) as [S N].
  - split; [exact S | discriminate].
  - split; [exact S | exact N].
Qed.

(** *** Lines *)

Lemma lines_from_line (a : string) :
  forall (current b : string),
    WellFormed.free_of [WellFormed.LF] a = true ->
    lines_from current (a ++ String WellFormed.LF b)
    = (current ++ a) :: lines_from "" b.
Proof.
  induction a as [|c a IH]; intros current b H.
  - simpl. now rewrite append_nil_r.
  - apply free_of_head in H. destruct H as [Hc Ha].
    simpl. unfold WellFormed.LF in Hc. rewrite Hc, (IH _ _ Ha).
    now rewrite append_assoc.
Qed.



(** *** Metadata lines *)

Lemma metadata_line_entry (kv : string * string) (rest : string) :
  metadata_line kv ++ rest = entry_line kv ++ String WellFormed.LF rest.
Proof.
  unfold metadata_line, entry_line, JS.LF, WellFormed.LF.
  repeat rewrite append_assoc. reflexivity.
Qed.

(** *** Step lines *)

Lemma lines_steps (texts : list string) :
  Forall (fun t => WellFormed.free_of [WellFormed.LF] t = true /\ t <> "") texts ->
  filter JS.truthy_string
    (lines (JS.join (JS.LF ++ JS.LF) texts ++ String WellFormed.LF ""))
  = texts.
Proof.
  unfold lines.
  induction texts as [|t texts IH]; intros H; [reflexivity|].
  inversion H as [|? ? [One NotEmpty] Htexts]; subst.
  destruct texts as [|t' texts].
  - simpl JS.join. rewrite (lines_from_line _ _ _ One). simpl.
    destruct t; [congruence | reflexivity].
  - change (JS.join (JS.LF ++ JS.LF) (t :: t' :: texts))
      with (t ++ (JS.LF ++ JS.LF) ++ JS.join (JS.LF ++ JS.LF) (t' :: texts)).
    rewrite append_assoc.
    change ((JS.LF ++ JS.LF) ++ JS.join (JS.LF ++ JS.LF) (t' :: texts))
      with (String WellFormed.LF
              (String WellFormed.LF (JS.join (JS.LF ++ JS.LF) (t' :: texts)))).
    change (String WellFormed.LF
              (String WellFormed.LF (JS.join (JS.LF ++ JS.LF) (t' :: texts)))
            ++ String WellFormed.LF "")
      with (String WellFormed.LF
              (String WellFormed.LF
                 (JS.join (JS.LF ++ JS.LF) (t' :: texts)
                  ++ String WellFormed.LF ""))).
    rewrite (lines_from_line _ _ _ One).
    change (lines_from "" (String WellFormed.LF ?x)) with ("" :: lines_from "" x).
    cbn [filter app]. rewrite (IH Htexts).
    destruct t; [congruence | reflexivity].
Qed.

Lemma lines_from_last (a current : string) :
  single_line a = true -> lines_from current a = [current ++ a].
Proof.
  revert current. induction a as [|c a IH]; intros current H.
  - simpl. now rewrite append_nil_r.
  - apply free_of_head in H. destruct H as [Hc Ha].
    simpl. unfold WellFormed.LF in Hc. rewrite Hc, (IH _ Ha).
    now rewrite append_assoc.
Qed.

Lemma entry_line_single (kv : string * string) :
  single_line_entry kv = true -> single_line (entry_line kv) = true.
Proof.
  unfold single_line_entry, single_line, entry_line. intros H.
  apply andb_prop in H. destruct H as [K V].
  repeat rewrite free_of_app. now rewrite K, V.
Qed.

Lemma lines_metadata_single (m : Metadata) (rest : string) :
  forallb single_line_entry m = true ->
  lines (metadata_text m ++ rest) = (map entry_line m ++ lines rest)%list.
Proof.
  unfold lines. induction m as [|kv m IH]; intros H; [reflexivity|].
  simpl in H. apply andb_prop in H. destruct H as [Hkv Hm].
  unfold metadata_text. simpl map. rewrite concat_empty_cons.
  rewrite append_assoc, metadata_line_entry.
  rewrite (lines_from_line _ _ _ (entry_line_single kv Hkv)).
  simpl. f_equal. exact (IH Hm).
Qed.

Lemma toCooklang_not_empty (r : Recipe) : JS.truthy_string (toCooklang r) = true.
Proof.
  rewrite toCooklang_text. destruct (metadata_text (metadata r)); reflexivity.
Qed.

(** ** The document parser *)

(** *** The parser returns *)

Lemma split_at_length (c : ascii) (s : string) :
  forall a b : string,
    QuantityReader.split_at c s = Some (a, b) ->
    String.length s = String.length a + S (String.length b).
Proof.
  induction s as [|d s IH]; intros a b H; simpl in H; [discriminate|].
  destruct (Ascii.eqb d c).
  - injection H as <- <-. reflexivity.
  - destruct (QuantityReader.split_at c s) as [[a' b']|]; [|discriminate].
    injection H as <- <-. simpl. now rewrite (IH a' b' eq_refl).
Qed.

Lemma word_length (s : string) :
  String.length (fst (SpecParser.word s)) + String.length (snd (SpecParser.word s))
  = String.length s.
Proof.
  induction s as [|c s IH]; [reflexivity|].
  simpl. destruct (SpecParser.is_word_char c); [|reflexivity].
  destruct (SpecParser.word s) as [w rest]. simpl in *. now rewrite IH.
Qed.

(** The Inline Item Scanner never moves the cursor backwards. *)
Lemma read_item_shorter (type : ItemType) (after : string)
  (item : StepItem) (rest : string) :
  SpecParser.read_item type after = Some (item, rest) ->
  String.length rest <= String.length after.
Proof.
  unfold SpecParser.read_item, SpecParser.braced.
  destruct (QuantityReader.split_at "{" after) as [[name inside]|] eqn:E1.
  - destruct (QuantityReader.split_at "}" inside) as [[slot rest']|] eqn:E2.
    + destruct (QuantityReader.readSlot slot) as [quantity units].
      intros H. injection H as _ <-.
      apply split_at_length in E1, E2. lia.
    + pose proof (word_length after) as L.
      destruct (SpecParser.word after) as [[|c w] rest']; [discriminate|].
      intros H. injection H as _ <-. simpl in L. lia.
  - pose proof (word_length after) as L.
    destruct (SpecParser.word after) as [[|c w] rest']; [discriminate|].
    intros H. injection H as _ <-. simpl in L. lia.
Qed.

(** With more fuel than the line has characters the scan returns. *)
Lemma scan_returns (fuel : nat) :
  forall text line : string,
    String.length line < fuel ->
    exists items, SpecParser.scan fuel text line = Some items.
Proof.
  induction fuel as [|fuel IH]; intros text line L; [lia|].
  destruct line as [|c after]; simpl; [eexists; reflexivity|].
  simpl in L.
  destruct (SpecParser.sigil_type c) as [type|]; [|apply IH; lia].
  destruct (SpecParser.read_item type after) as [[item rest]|] eqn:E;
    [|apply IH; lia].
  apply read_item_shorter in E.
  destruct (IH "" rest) as [items ->]; [lia|].
  eexists. reflexivity.
Qed.

Lemma scan_line_returns (line : string) :
  exists items, SpecParser.scan_line line = Some items.
Proof. apply scan_returns. lia. Qed.

Lemma read_line_returns (syn : SpecParser.Syntax) (st : SpecParser.State)
  (line : string) :
  exists st', SpecParser.read_line syn st line = Some st'.
Proof.
  unfold SpecParser.read_line.
  destruct (SpecParser.st_in_section st); [eexists; reflexivity|].
  destruct (SpecParser.blank line); [eexists; reflexivity|].
  destruct (SpecParser.read_metadata_line line) as [[key value]|];
    [eexists; reflexivity|].
  destruct (SpecParser.section_start syn line); [eexists; reflexivity|].
  destruct (scan_line_returns line) as [items ->]. eexists. reflexivity.
Qed.

Lemma read_lines_returns (syn : SpecParser.Syntax) (ls : list string) :
  forall st, exists st', SpecParser.read_lines syn st ls = Some st'.
Proof.
  induction ls as [|line ls IH]; intros st; simpl; [eexists; reflexivity|].
  destruct (read_line_returns syn st line) as [st' ->]. apply IH.
Qed.

Lemma parse_returns (syn : SpecParser.Syntax) (source : string) :
  exists result, SpecParser.parse syn source = JS.Normal result.
Proof.
  unfold SpecParser.parse.
  destruct (read_lines_returns syn
              (lines (SpecParser.strip_comments syn source)) SpecParser.start)
    as [st ->].
  eexists. reflexivity.
Qed.

(** C1. Parsing returns on every source and never throws: with the parser
    the specification describes (comment stripper, metadata line reader,
    inline item scanner, shopping-list block reader and the line-by-line
    document parser), [parse] returns parsed fields for every source
    string, whatever the markers the specification leaves unnamed, and so
    the constructor returns a recipe for every source, omitted, empty or
    not.  With the sample markers, the empty source gives the empty recipe,
    an unmatched brace stays in the text after the item, and an
    unterminated block comment runs to the end of the source. *)
Theorem parse_never_throws (syn : SpecParser.Syntax) :
  (forall source : string,
      exists result, SpecParser.parse syn source = JS.Normal result)
  /\ (forall source : option string,
         exists recipe : Recipe,
           Recipe_constructor (SpecParser.parser syn) source = JS.Normal recipe
           /\ forall e,
               Recipe_constructor (SpecParser.parser syn) source <> JS.Throw e)
  /\ SpecParser.parse syn ""
     = JS.Normal {| ParseResult.metadata := [];
                    ParseResult.steps := [];
                    ParseResult.shoppingList := [] |}
  /\ SpecParser.parse Sample.syntax Sample.unmatched_brace
     = JS.Normal
         {| ParseResult.metadata := [];
            ParseResult.steps :=
              [[Text "Add "; Item ingredient "salt" None None;
                Text "{ to taste"]];
            ParseResult.shoppingList := [] |}
  /\ SpecParser.parse Sample.syntax Sample.unterminated_comment
     = JS.Normal
         {| ParseResult.metadata := [];
            ParseResult.steps :=
              [[Text "Boil the "; Item cookware "pot" None None;
                Text " of water. "]];
            ParseResult.shoppingList := [] |}.
Proof.
  split; [exact (parse_returns syn)|].
  split.
  { apply Recipe_constructor_of_total_parser.
    intros source _. exact (parse_returns syn source). }
  repeat split; reflexivity.
Qed.

(** The parser on the source of the README gives the metadata the README
    shows, and reads [1,5] and [3/4] as numbers and [one sliced] as text. *)
Lemma parse_readme :
  SpecParser.parse Sample.syntax Sample.readme
  = JS.Normal
      {| ParseResult.metadata :=
           [("source", "https://www.dinneratthezoo.com/wprm_print/6796");
            ("total time", "6 minutes");
            ("servings", "2")];
         ParseResult.steps :=
           [[Text "Place the ";
             Item ingredient "apple juice"
               (Some (QNumber Sample.three_halves)) (Some "cups");
             Text ", ";
             Item ingredient "banana" (Some (QString "one sliced")) None;
             Text ", ";
             Item ingredient "frozen mixed berries"
               (Some (QNumber Sample.three_halves)) (Some "cups");
             Text " and ";
             Item ingredient "vanilla greek yogurt"
               (Some (QNumber (JS.div (JS.of_Z 3) (JS.of_Z 4)))) (Some "cup");
             Text " in a ";
             Item cookware "blender" None None;
             Text "; blend until smooth. If the smoothie seems too thick, add a little more liquid (1/4 cup). "];
            [Text "Taste and add ";
             Item ingredient "honey" None None;
             Text " if desired. Pour into two glasses and garnish with fresh berries and mint sprigs if desired."]];
         ParseResult.shoppingList := [] |}.
Proof. vm_compute. reflexivity. Qed.

(** Comments leave no trace, a later metadata line overwrites an earlier
    one, the lines of a paragraph make one step, and the lines after the
    section start make the shopping list. *)
Lemma parse_samples :
  SpecParser.parse Sample.syntax Sample.commented
  = JS.Normal
      {| ParseResult.metadata := [("servings", "4")];
         ParseResult.steps :=
           [[Text "Mash the ";
             Item ingredient "potato" (Some (QNumber Sample.two)) (Some "kg");
             Text " "; Text "until  smooth."];
            [Text "Serve with ";
             Item ingredient "butter" None None;
             Text " and ";
             Item timer "" (Some (QNumber (JS.of_Z 5))) (Some "minutes");
             Text " of patience."]];
         ParseResult.shoppingList := [] |}
  /\ SpecParser.parse Sample.syntax Sample.with_shopping_list
     = JS.Normal
         {| ParseResult.metadata := [];
            ParseResult.steps :=
              [[Text "Slice the ";
                Item ingredient "bell pepper" (Some (QNumber (JS.of_Z 1))) None;
                Text "."]];
            ParseResult.shoppingList := groceries |}
  /\ SpecParser.parse Sample.syntax "@banana"
     = JS.Normal
         {| ParseResult.metadata := [];
            ParseResult.steps := [[Sample.banana]];
            ParseResult.shoppingList := [] |}
  /\ SpecParser.parse Sample.syntax "@frozen mixed berries{1,5%cups}"
     = JS.Normal
         {| ParseResult.metadata := [];
            ParseResult.steps :=
              [[Item ingredient "frozen mixed berries"
                  (Some (QNumber Sample.three_halves)) (Some "cups")]];
            ParseResult.shoppingList := [] |}.
Proof. repeat split; vm_compute; reflexivity. Qed.

(** *** Reading back what [toCooklang] writes *)















(** *** Metadata lines *)




Section Assignments.

Variable V : Type.



End Assignments.




(** *** Step lines *)













(** Whole numbers and common fractions are numbers of well-formed items:
    they are written in a form that is read back as the same number. *)
Lemma common_quantities_read_back :
  forallb WellFormed.number
    (map JS.of_Z [1; 2; 3; 4; 5; 6; 7; 8; 9; 10; 12; 100; 250; 1000]%Z
     ++ map (fun fraction : Z * Z =>
               JS.div (JS.of_Z (fst fraction)) (JS.of_Z (snd fraction)))
          [(1, 2); (1, 3); (2, 3); (1, 4); (3, 4); (1, 8); (1, 10); (5, 2)]%Z)%list
  = true.
Proof. vm_compute. reflexivity. Qed.

(** Outside these recipes the parser reads something else.  A negative
    number and a number written with an exponent come back as text; a name,
    a metadata key and a metadata value come back trimmed; a metadata key
    that is an array index comes back before the keys written before it; of
    two entries with the same key the first is lost; a step written as a
    blank line is lost; a step that begins with [>>] and has a colon comes
    back as metadata; what follows a comment marker is lost; a step that is
    the section start marker comes back as no step, and what follows it as
    the shopping list. *)
Lemma parse_toCooklang_changes :
  let recipe m l :=
    {| metadata := m; steps := l; shoppingList := [];
       parser := Sample.throwing_Parser |} in
  let parsed m l :=
    JS.Normal {| ParseResult.metadata := m; ParseResult.steps := l;
                 ParseResult.shoppingList := [] |} in
  SpecParser.parse Sample.syntax
    (toCooklang
       (recipe [] [[Item ingredient "ice" (Some (QNumber (JS.of_Z (-1)))) None]]))
  = parsed [] [[Item ingredient "ice" (Some (QString "-1")) None]]
  /\ SpecParser.parse Sample.syntax
       (toCooklang
          (recipe []
             [[Item ingredient "sand" (Some (QNumber (JS.of_Z (10 ^ 21)))) None]]))
     = parsed [] [[Item ingredient "sand" (Some (QString "1e+21")) None]]
  /\ SpecParser.parse Sample.syntax
       (toCooklang (recipe [] [[Item ingredient "salt " None None]]))
     = parsed [] [[Item ingredient "salt" None None]]
  /\ SpecParser.parse Sample.syntax
       (toCooklang (recipe [("cook ", " slowly")] []))
     = parsed [("cook", "slowly")] []
  /\ SpecParser.parse Sample.syntax
       (toCooklang (recipe [("servings", "2"); ("1", "one")] []))
     = parsed [("1", "one"); ("servings", "2")] []
  /\ SpecParser.parse Sample.syntax
       (toCooklang (recipe [("servings", "2"); ("servings", "4")] []))
     = parsed [("servings", "4")] []
  /\ SpecParser.parse Sample.syntax
       (toCooklang (recipe [] [[Text " "]; [Text "Serve."]]))
     = parsed [] [[Text "Serve."]]
  /\ SpecParser.parse Sample.syntax
       (toCooklang (recipe [] [[Text ">> servings: 2"]]))
     = parsed [("servings", "2")] []
  /\ SpecParser.parse Sample.syntax
       (toCooklang (recipe [] [[Text "Boil -- gently."]]))
     = parsed [] [[Text "Boil "]]
  /\ SpecParser.parse Sample.syntax
       (toCooklang (recipe [] [[Text "[shopping list]"]; [Text "Serve."]]))
     = JS.Normal {| ParseResult.metadata := [];
                    ParseResult.steps := [];
                    ParseResult.shoppingList := [("Serve.", [])] |}.
Proof. repeat split; vm_compute; reflexivity. Qed.

(** * Further properties of [index.ts] *)

(** ** The constructor and the parser *)

(** X1. The constructor throws exactly when the source is a non-empty string
    on which the parser throws, and then it throws what the parser threw;
    otherwise it returns the empty recipe (source omitted or empty) or the
    recipe holding the three fields the parser returned. *)
Theorem Recipe_constructor_outcome
  (new_Parser : Parser) (source : option string) :
  (forall e : string,
      Recipe_constructor new_Parser source = JS.Throw e
      <-> exists src, source = Some src /\ src <> ""
                      /\ parse new_Parser src = JS.Throw e)
  /\ (forall r : Recipe,
         Recipe_constructor new_Parser source = JS.Normal r
         <-> ((source = None \/ source = Some "") /\ r = Recipe_init new_Parser)
             \/ exists src result,
                  source = Some src /\ src <> ""
                  /\ parse new_Parser src = JS.Normal result
                  /\ r = Object_assign (Recipe_init new_Parser) result).
Proof.
  destruct source as [[|c src]|].
  - split.
    + intros e. split; [discriminate|].
      intros [src [E [NE _]]]. injection E as <-. congruence.
    + intros r. split.
      * intros E. injection E as <-. left. split; [right|]; reflexivity.
      * intros [[_ ->] | [src [result [E [NE _]]]]]; [reflexivity|].
        injection E as <-. congruence.
  - rewrite Recipe_constructor_parsed. split.
    + intros e. split.
      * intros E. exists (String c src). split; [reflexivity|].
        split; [discriminate|].
        destruct (parse new_Parser (String c src));
          [discriminate E | simpl in E; injection E as <-; reflexivity].
      * intros [src' [E [_ T]]]. injection E as <-. rewrite T. reflexivity.
    + intros r. split.
      * intros E. right. exists (String c src).
        destruct (parse new_Parser (String c src)) as [result|e] eqn:P;
          [|discriminate E].
        exists result. injection E as <-.
        repeat split; discriminate.
      * intros [[[E|E] _] | [src' [result [E [_ [P ->]]]]]];
          try discriminate E.
        injection E as <-. now rewrite P.
  - split.
    + intros e. split; [discriminate|].
      intros [src [E _]]. discriminate E.
    + intros r. split.
      * intros E. injection E as <-. left. split; [left|]; reflexivity.
      * intros [[_ ->] | [src [result [E _]]]]; [reflexivity | discriminate E].
Qed.

Lemma occurrences_app (c : ascii) (a b : string) :
  occurrences c (a ++ b) = occurrences c a + occurrences c b.
Proof.
  induction a as [|d a IH]; simpl; [reflexivity|].
  rewrite IH. apply Nat.add_assoc.
Qed.

Lemma lines_from_length (s current : string) :
  List.length (lines_from current s) = S (occurrences WellFormed.LF s).
Proof.
  revert current. induction s as [|c s IH]; intros current; simpl;
    [reflexivity|].
  unfold WellFormed.LF. destruct (Ascii.eqb c "010"); simpl; now rewrite IH.
Qed.

(** X2. The text [toCooklang] returns is never empty: it has at least two
    line feeds, hence at least three lines, and exactly two line feeds for
    the empty recipe.  So a recipe constructed from the serialization of a
    recipe always goes through the parser, and it throws whenever the parser
    throws on that text. *)
Theorem toCooklang_never_empty (new_Parser : Parser) (r : Recipe) :
  toCooklang r <> ""
  /\ 2 <= occurrences WellFormed.LF (toCooklang r)
  /\ 3 <= List.length (lines (toCooklang r))
  /\ toCooklang (Recipe_init new_Parser) = JS.LF ++ JS.LF
  /\ Recipe_constructor new_Parser (Some (toCooklang r))
     = JS.bind (parse new_Parser (toCooklang r))
         (fun result =>
            JS.Normal (Object_assign (Recipe_init new_Parser) result)).
Proof.
  assert (two : 2 <= occurrences WellFormed.LF (toCooklang r)).
  { rewrite toCooklang_text, !occurrences_app. simpl. lia. }
  split; [|split; [exact two | split; [|split]]].
  - intros E. rewrite E in two. simpl in two. lia.
  - unfold lines. rewrite lines_from_length. lia.
  - reflexivity.
  - unfold Recipe_constructor. now rewrite toCooklang_not_empty.
Qed.

(** ** Text items are written verbatim *)

Lemma step_text_app (a b : Step) :
  step_text (a ++ b)%list = step_text a ++ step_text b.
Proof.
  unfold step_text. induction a as [|i a IH]; [reflexivity|].
  simpl map. rewrite !concat_empty_cons, IH. now rewrite append_assoc.
Qed.

Lemma step_text_cons (i : StepItem) (a : Step) :
  step_text (i :: a) = item_text i ++ step_text a.
Proof. unfold step_text. simpl map. apply concat_empty_cons. Qed.

(** The text depends on a step only through the text of the step. *)
Lemma toCooklang_same_step (m : Metadata) (before after : list Step)
  (s1 s2 : Step) (l : ShoppingList) (p1 p2 : Parser) :
  step_text s1 = step_text s2 ->
  toCooklang {| metadata := m; steps := (before ++ s1 :: after)%list;
                shoppingList := l; parser := p1 |}
  = toCooklang {| metadata := m; steps := (before ++ s2 :: after)%list;
                  shoppingList := l; parser := p2 |}.
Proof.
  intros E. rewrite !toCooklang_text. simpl.
  rewrite !map_app. simpl map. now rewrite E.
Qed.

(** X4. Text items are written verbatim, without any escaping, so the text
    does not show where the items of a step begin and end: wherever it
    stands, an item can be replaced by a text item holding what is written
    for it, two text items in a row by one holding both texts, and an empty
    text item can be removed, without changing what [toCooklang] returns. *)
Theorem toCooklang_text_items_verbatim
  (c : ItemContext) (i : StepItem) (a b : string) :
  toCooklang (place c (Text (item_text i))) = toCooklang (place c i)
  /\ toCooklang (place_two c (Text a) (Text b))
     = toCooklang (place c (Text (a ++ b)))
  /\ toCooklang (place c (Text "")) = toCooklang (place_none c).
Proof.
  unfold place, place_two, place_none.
  split; [|split]; apply toCooklang_same_step;
    rewrite !step_text_app, !step_text_cons; simpl item_text.
  - reflexivity.
  - now rewrite append_assoc.
  - reflexivity.
Qed.

(** ** The lines of the text *)

(** X5. When no metadata key or value contains a line feed, the text
    [toCooklang] returns starts with one line [>> key: value] per metadata
    entry, in the order of the entries, followed by an empty line; the lines
    of the steps and of the shopping list come after it. *)
Theorem toCooklang_metadata_lines (r : Recipe) :
  forallb single_line_entry (metadata r) = true ->
  lines (toCooklang r)
  = (map entry_line (metadata r)
     ++ "" :: lines (JS.join (JS.LF ++ JS.LF) (map step_text (steps r))
                     ++ JS.LF
                     ++ JS.join (JS.LF ++ JS.LF)
                          (map category_text (shoppingList r))))%list.
Proof.
  intros H. rewrite toCooklang_text, (lines_metadata_single _ _ H).
  reflexivity.
Qed.

Lemma toCooklang_metadata_lines_witness :
  forallb single_line_entry (metadata Sample.three_sections) = true
  /\ lines (toCooklang Sample.three_sections)
     = [">> servings: 2"; ""; "Boil the water."; "produce"; "apple"].
Proof.
  split; [reflexivity|].
  rewrite (toCooklang_metadata_lines Sample.three_sections eq_refl).
  reflexivity.
Defined.

Lemma filter_entry_lines (m : Metadata) :
  filter JS.truthy_string (map entry_line m) = map entry_line m.
Proof.
  induction m as [|kv m IH]; [reflexivity|]. simpl. now rewrite IH.
Qed.

Lemma one_line_step_text (step : Step) :
  one_line_step step = true ->
  WellFormed.free_of [WellFormed.LF] (step_text step) = true
  /\ step_text step <> "".
Proof.
  unfold one_line_step, single_line. intros H.
  apply andb_prop in H. destruct H as [One NotEmpty].
  split; [exact One|]. intros E. rewrite E in NotEmpty. discriminate.
Qed.

(** X6. When no metadata key or value contains a line feed, the text
    written for each step contains no line feed and is not empty, and the
    shopping list is empty, every metadata entry and every step is written
    on exactly one line of its own: the non-empty lines of the text are the
    metadata lines followed by the texts of the steps, in order, so there
    are as many of them as entries and steps together. *)
Theorem toCooklang_one_line_per_step (r : Recipe) :
  forallb single_line_entry (metadata r) = true ->
  forallb one_line_step (steps r) = true ->
  shoppingList r = [] ->
  filter JS.truthy_string (lines (toCooklang r))
  = (map entry_line (metadata r) ++ map step_text (steps r))%list
  /\ List.length (filter JS.truthy_string (lines (toCooklang r)))
     = List.length (metadata r) + List.length (steps r).
Proof.
  intros M S L.
  assert (E : filter JS.truthy_string (lines (toCooklang r))
              = (map entry_line (metadata r) ++ map step_text (steps r))%list).
  { rewrite toCooklang_text, (lines_metadata_single _ _ M), L.
    rewrite filter_app, filter_entry_lines. f_equal.
    change (JS.LF ++ ?x) with (String WellFormed.LF x).
    change (lines (String WellFormed.LF ?x)) with ("" :: lines x).
    cbn [filter JS.truthy_string map JS.join].
    apply lines_steps.
    clear - S. induction (steps r) as [|step l IH]; [constructor|].
    simpl in S. apply andb_prop in S. destruct S as [Ws Wl].
    simpl map. constructor; [exact (one_line_step_text step Ws) | exact (IH Wl)]. }
  split; [exact E|].
  now rewrite E, length_app, !length_map.
Qed.

Lemma toCooklang_one_line_per_step_witness :
  forallb single_line_entry (metadata Sample.sliced) = true
  /\ forallb one_line_step (steps Sample.sliced) = true
  /\ shoppingList Sample.sliced = []
  /\ filter JS.truthy_string (lines (toCooklang Sample.sliced))
     = [">> total time: 6 minutes";
        "Add the @banana{one sliced} to the #blender{}.";
        "Blend."].
Proof.
  split; [reflexivity|]. split; [reflexivity|]. split; [reflexivity|].
  rewrite (proj1 (toCooklang_one_line_per_step Sample.sliced
                    eq_refl eq_refl eq_refl)).
  reflexivity.
Defined.

Lemma lines_join (items : list string) :
  items <> [] ->
  forallb single_line items = true ->
  lines (JS.join JS.LF items) = items.
Proof.
  unfold lines. induction items as [|x items IH]; intros NE H; [congruence|].
  simpl in H. apply andb_prop in H. destruct H as [Hx Hitems].
  destruct items as [|y items].
  - simpl. now rewrite (lines_from_last _ _ Hx).
  - change (JS.join JS.LF (x :: y :: items))
      with (x ++ String WellFormed.LF (JS.join JS.LF (y :: items))).
    rewrite (lines_from_line _ _ _ Hx). cbn [append].
    f_equal. apply IH; [discriminate | exact Hitems].
Qed.

(** X7. When neither a category name nor what is written for an item of
    the shopping list contains a line feed, the string built for each
    category is the header line followed by one line per item; a category
    without items is its header followed by one empty line. *)
Theorem shoppingList_category_lines (l : ShoppingList) :
  forallb single_line_category l = true ->
  map lines (shoppingList_loop l) = map category_lines l.
Proof.
  intros H. rewrite shoppingList_loop_text, map_map.
  induction l as [|[category items] l IH]; [reflexivity|].
  simpl in H. apply andb_prop in H. destruct H as [Hc Hl].
  simpl map. rewrite (IH Hl). f_equal.
  unfold single_line_category in Hc. simpl in Hc.
  apply andb_prop in Hc. destruct Hc as [Hname Hitems].
  unfold category_text, category_lines, lines. simpl fst. simpl snd.
  change (category ++ JS.LF ++ ?x) with (category ++ String WellFormed.LF x).
  rewrite (lines_from_line _ _ _ Hname). cbn [append]. f_equal.
  destruct items as [|x items]; [reflexivity|].
  apply lines_join; [discriminate|].
  clear - Hitems. induction (x :: items) as [|y l IH]; [reflexivity|].
  simpl in Hitems. apply andb_prop in Hitems. destruct Hitems as [Hy Hl].
  simpl. now rewrite Hy, (IH Hl).
Qed.

Lemma shoppingList_category_lines_witness :
  forallb single_line_category groceries = true
  /\ map lines (shoppingList_loop groceries)
     = [["produce"; "bell pepper|capsicum"; "apple"]; ["dairy"; ""]].
Proof.
  split; [reflexivity|].
  rewrite (shoppingList_category_lines groceries eq_refl). reflexivity.
Defined.

(** ** More on [getImageURL] *)

Lemma append_inv_tail (a b s : string) : a ++ s = b ++ s -> a = b.
Proof.
  revert b. induction a as [|c a IH]; intros [|d b] E.
  - reflexivity.
  - apply (f_equal String.length) in E. simpl in E.
    rewrite length_append in E. lia.
  - apply (f_equal String.length) in E. simpl in E.
    rewrite length_append in E. lia.
  - simpl in E. injection E as -> E. f_equal. exact (IH _ E).
Qed.

Lemma append_inv_head (a x y : string) : a ++ x = a ++ y -> x = y.
Proof.
  induction a as [|c a IH]; simpl; intros E; [exact E|].
  injection E as E. exact (IH E).
Qed.

(** X8. The URL does not determine the name and the options it was built
    from.  A step that is [0], [-0] or [NaN] gives the URL of no step at all;
    an empty extension, no extension and ["png"] give the same URL; omitted
    options are empty options; and, names being used as they are, a truthy
    step [n] gives for [name] the URL that no step gives for the name
    [name.n]. *)
Theorem getImageURL_not_injective
  (name : string) (ext : option string) (sign : bool) (n : JS.number) :
  JS.truthy_number n = true ->
  getImageURL name (Some {| step := Some (S754_zero sign); extension := ext |})
  = getImageURL name (Some {| step := None; extension := ext |})
  /\ getImageURL name (Some {| step := Some S754_nan; extension := ext |})
     = getImageURL name (Some {| step := None; extension := ext |})
  /\ getImageURL name (Some {| step := None; extension := Some "" |})
     = getImageURL name None
  /\ getImageURL name (Some {| step := None; extension := Some "png" |})
     = getImageURL name None
  /\ getImageURL name (Some {| step := None; extension := None |})
     = getImageURL name None
  /\ getImageURL name (Some {| step := Some n; extension := ext |})
     = getImageURL (name ++ "." ++ JS.Number_toString n)
         (Some {| step := None; extension := ext |}).
Proof.
  intros T. repeat split; try reflexivity.
  unfold getImageURL. simpl. rewrite T.
  now rewrite !append_assoc.
Qed.

Lemma getImageURL_not_injective_witness :
  JS.truthy_number (JS.of_Z 2) = true
  /\ getImageURL "Baked Potato" (Some Sample.jpg_step_2)
     = getImageURL "Baked Potato.2"
         (Some {| step := None; extension := Some "jpg" |}).
Proof.
  split; [reflexivity|].
  destruct (getImageURL_not_injective "Baked Potato" (Some "jpg") false
              (JS.of_Z 2) eq_refl) as [_ [_ [_ [_ [_ E]]]]].
  unfold Sample.jpg_step_2. rewrite E. vm_compute. reflexivity.
Defined.

(** X9. For the same options, different names give different URLs: the
    name is the head of the URL and what follows it depends on the options
    only. *)
Theorem getImageURL_name_injective
  (name1 name2 : string) (options : option ImageURLOptions) :
  name1 <> name2 ->
  getImageURL name1 options <> getImageURL name2 options.
Proof.
  intros NE E. apply NE. unfold getImageURL in E.
  injection E as E. exact (append_inv_tail _ _ _ E).
Qed.

Lemma getImageURL_name_injective_witness :
  "Soup" <> "Stew"
  /\ getImageURL "Soup" (Some Sample.jpg_step_2)
     <> getImageURL "Stew" (Some Sample.jpg_step_2).
Proof.
  assert (NE : "Soup" <> "Stew") by discriminate.
  split; [exact NE|].
  exact (getImageURL_name_injective "Soup" "Stew" (Some Sample.jpg_step_2) NE).
Defined.

(** ** More on [toJSON] *)

Lemma toJSON_text (r : Recipe) :
  toJSON r
  = "{" ++ JSON.quote "metadata" ++ ":"
        ++ JSON.stringify (Metadata_json (metadata r)) ++ ","
        ++ JSON.quote "steps" ++ ":"
        ++ JSON.stringify (steps_json (steps r)) ++ "}".
Proof.
  unfold toJSON, toJSON_object.
  change (JSON.stringify
            (JSON.Object [("metadata", Metadata_json (metadata r));
                          ("steps", steps_json (steps r))]))
    with ("{" ++ ((JSON.quote "metadata" ++ ":"
                    ++ JSON.stringify (Metadata_json (metadata r)))
                   ++ "," ++ (JSON.quote "steps" ++ ":"
                    ++ JSON.stringify (steps_json (steps r)))) ++ "}").
  now rewrite !append_assoc.
Qed.

Lemma stringify_array (A : Type) (f : A -> JSON.value) (l : list A) :
  JSON.stringify (JSON.Array (map f l))
  = "[" ++ JS.join "," (map (fun x => JSON.stringify (f x)) l) ++ "]".
Proof.
  change (JSON.stringify (JSON.Array (map f l)))
    with ("[" ++ JS.join "," (map JSON.stringify (map f l)) ++ "]").
  now rewrite map_map.
Qed.

(** An element of a joined list stands between two strings that do not
    depend on it. *)
Lemma join_middle (sep : string) (l1 l2 : list string) :
  exists A B, forall x, JS.join sep (l1 ++ x :: l2) = A ++ x ++ B.
Proof.
  induction l1 as [|y l1 [A [B IH]]].
  - destruct l2 as [|z l2].
    + exists "", "". intros x. simpl. now rewrite append_nil_r.
    + exists "", (sep ++ JS.join sep (z :: l2)). intros x. reflexivity.
  - exists (y ++ sep ++ A), B. intros x.
    change (JS.join sep ((y :: l1) ++ x :: l2))
      with (JS.join sep (y :: (l1 ++ x :: l2))).
    assert (E : JS.join sep (y :: (l1 ++ x :: l2))
                = y ++ sep ++ JS.join sep (l1 ++ x :: l2)).
    { destruct l1; reflexivity. }
    rewrite E, IH. now rewrite !append_assoc.
Qed.

(** What [toJSON] writes for an item stands between two strings that depend
    on the rest of the recipe only. *)
Lemma toJSON_place (c : ItemContext) :
  exists A B, forall i,
    toJSON (place c i) = A ++ JSON.stringify (StepItem_json i) ++ B.
Proof.
  destruct (join_middle ","
              (map (fun step : Step =>
                      JSON.stringify (JSON.Array (map StepItem_json step)))
                   (ctx_steps_before c))
              (map (fun step : Step =>
                      JSON.stringify (JSON.Array (map StepItem_json step)))
                   (ctx_steps_after c))) as [A1 [B1 H1]].
  destruct (join_middle ","
              (map (fun i => JSON.stringify (StepItem_json i))
                   (ctx_items_before c))
              (map (fun i => JSON.stringify (StepItem_json i))
                   (ctx_items_after c))) as [A2 [B2 H2]].
  exists ("{" ++ JSON.quote "metadata" ++ ":"
          ++ JSON.stringify (Metadata_json (ctx_metadata c)) ++ ","
          ++ JSON.quote "steps" ++ ":" ++ "[" ++ A1 ++ "[" ++ A2).
  exists (B2 ++ "]" ++ B1 ++ "]" ++ "}").
  intros i. rewrite toJSON_text. unfold place, steps_json. simpl metadata.
  simpl steps. rewrite stringify_array, map_app. cbn [map].
  rewrite H1, stringify_array, map_app. cbn [map]. rewrite H2.
  now rewrite !append_assoc.
Qed.

(** Two strings that differ after what they both begin with. *)
Ltac differ E :=
  first
    [ discriminate E
    | rewrite append_assoc in E; differ E
    | progress simpl in E; differ E
    | apply append_inv_head in E; differ E
    | injection E as E; differ E ].

(** X10. [toJSON] keeps what [toCooklang] leaves out: wherever the item
    stands in a recipe, the JSON text with a quantity of zero differs from
    the JSON text without quantity, and the JSON text with empty units
    differs from the JSON text without units. *)
Theorem toJSON_keeps_falsy_fields
  (c : ItemContext) (type : ItemType) (name : string)
  (quantity : option Quantity) (units : option string) (sign : bool) :
  toJSON (place c (Item type name (Some (QNumber (S754_zero sign))) units))
  <> toJSON (place c (Item type name None units))
  /\ toJSON (place c (Item type name quantity (Some "")))
     <> toJSON (place c (Item type name quantity None)).
Proof.
  destruct (toJSON_place c) as [A [B H]]. rewrite !H. split; intros E.
  - apply append_inv_head in E.
    destruct type, units as [u|]; simpl in E;
      repeat rewrite append_assoc in E; simpl in E;
      differ E.
  - apply append_inv_head in E.
    destruct type, quantity as [[n|s]|]; simpl in E;
      repeat rewrite append_assoc in E; simpl in E;
      differ E.
Qed.

(** *** No control character in the JSON text *)

Section NumberCharacters.

Variable ok : ascii -> bool.
Hypothesis alphabet :
  WellFormed.all_chars ok "0123456789.+-eInfityNa" = true.

Ltac letters :=
  let H := fresh "H" in
  pose proof alphabet as H; simpl in H;
  repeat (apply andb_prop in H; let L := fresh "L" in destruct H as [L H]).

Ltac by_letters :=
  simpl; repeat (apply andb_true_intro; split); try assumption; try reflexivity.

Lemma string_of_uint_chars (d : Decimal.uint) :
  WellFormed.all_chars ok (NilEmpty.string_of_uint d) = true.
Proof.
  letters. induction d; simpl; try reflexivity;
    apply andb_true_intro; split; assumption.
Qed.

Lemma zeros_chars (n : nat) : WellFormed.all_chars ok (JS.zeros n) = true.
Proof.
  letters. induction n; simpl; [reflexivity|].
  apply andb_true_intro; split; assumption.
Qed.

Lemma toString_finite_chars (m : positive) (e : Z) :
  WellFormed.all_chars ok (JS.toString_finite m e) = true.
Proof.
  letters. unfold JS.toString_finite.
  destruct (JS.shortest 17 m e (JS.magnitude 640 (JS.Qvalue m e) (-324)) 1)
    as [[n k] s].
  repeat match goal with
         | |- context [if ?b then _ else _] => destruct b
         end;
    repeat rewrite all_chars_app;
    repeat (apply andb_true_intro; split);
    try apply string_of_uint_chars;
    try apply zeros_chars;
    try (apply all_chars_substring; apply string_of_uint_chars);
    by_letters.
Qed.

Lemma Number_toString_chars (x : JS.number) :
  WellFormed.all_chars ok (JS.Number_toString x) = true.
Proof.
  letters.
  destruct x as [s|[|]| |[|] m e]; simpl;
    repeat (apply andb_true_intro; split);
    try assumption; try reflexivity; apply toString_finite_chars.
Qed.

End NumberCharacters.

Lemma all_chars_imp (ok1 ok2 : ascii -> bool) (s : string) :
  (forall c, ok1 c = true -> ok2 c = true) ->
  WellFormed.all_chars ok1 s = true -> WellFormed.all_chars ok2 s = true.
Proof.
  intros I. induction s as [|c s IH]; [reflexivity|].
  cbn [WellFormed.all_chars]. intros H. apply andb_prop in H.
  destruct H as [Hc Hs]. now rewrite (I c Hc), (IH Hs).
Qed.

Lemma no_control_app (a b : string) :
  no_control (a ++ b) = no_control a && no_control b.
Proof. apply all_chars_app. Qed.

Lemma no_control_number (x : JS.number) :
  no_control (JS.Number_toString x) = true.
Proof. apply Number_toString_chars. reflexivity. Qed.

Lemma no_control_escape (c : ascii) : no_control (JSON.escape c) = true.
Proof. destruct c as [[] [] [] [] [] [] [] []]; reflexivity. Qed.

Lemma no_control_quote (s : string) : no_control (JSON.quote s) = true.
Proof.
  unfold JSON.quote.
  change (String JSON.DQUOTE (JSON.escape_all s ++ String JSON.DQUOTE ""))
    with (String JSON.DQUOTE "" ++ JSON.escape_all s ++ String JSON.DQUOTE "").
  rewrite !no_control_app.
  assert (E : no_control (JSON.escape_all s) = true).
  { induction s as [|c s IH]; [reflexivity|].
    simpl. now rewrite no_control_app, no_control_escape, IH. }
  now rewrite E.
Qed.

Lemma no_control_join (sep : string) (l : list string) :
  no_control sep = true ->
  forallb no_control l = true ->
  no_control (JS.join sep l) = true.
Proof.
  intros Hsep. induction l as [|x l IH]; intros H; [reflexivity|].
  simpl in H. apply andb_prop in H. destruct H as [Hx Hl].
  destruct l as [|y l]; [exact Hx|].
  change (JS.join sep (x :: y :: l)) with (x ++ sep ++ JS.join sep (y :: l)).
  now rewrite !no_control_app, Hx, Hsep, (IH Hl).
Qed.

Lemma forallb_map_all (A : Type) (f : A -> string) (l : list A) :
  (forall x, no_control (f x) = true) ->
  forallb no_control (map f l) = true.
Proof.
  intros H. induction l as [|x l IH]; [reflexivity|].
  simpl. now rewrite H, IH.
Qed.

Lemma no_control_quantity (q : Quantity) :
  no_control (JSON.stringify (Quantity_json q)) = true.
Proof.
  destruct q as [n|s]; [|apply no_control_quote].
  destruct n; try reflexivity; apply no_control_number.
Qed.

Lemma no_control_item (i : StepItem) :
  no_control (JSON.stringify (StepItem_json i)) = true.
Proof.
  assert (Q := no_control_quote). assert (N := no_control_quantity).
  destruct i as [value | type name [q|] [u|]];
    unfold StepItem_json, JSON.property, option_map; cbn [app];
    cbn [JSON.stringify map JS.join fst snd];
    repeat rewrite no_control_app;
    repeat (apply andb_true_intro; split);
    try apply Q; try apply N; try reflexivity.
Qed.

(** X11. The text [toJSON] returns contains no control character, whatever
    the strings of the recipe contain; in particular it has no line feed
    and is a single line. *)
Theorem toJSON_single_line (r : Recipe) :
  no_control (toJSON r) = true
  /\ occurrences WellFormed.LF (toJSON r) = 0
  /\ lines (toJSON r) = [toJSON r].
Proof.
  assert (C : no_control (toJSON r) = true).
  { rewrite toJSON_text. unfold Metadata_json, steps_json.
    rewrite stringify_array.
    change (JSON.stringify
              (JSON.Object
                 (map (fun kv : string * string =>
                         (fst kv, JSON.String_ (snd kv))) (metadata r))))
      with ("{" ++ JS.join ","
                     (map (fun kv : string * JSON.value =>
                             JSON.quote (fst kv) ++ ":"
                             ++ JSON.stringify (snd kv))
                          (map (fun kv : string * string =>
                                  (fst kv, JSON.String_ (snd kv)))
                               (metadata r)))
                ++ "}").
    rewrite map_map. repeat rewrite no_control_app.
    repeat (apply andb_true_intro; split);
      try apply no_control_quote; try reflexivity.
    - apply no_control_join; [reflexivity|]. apply forallb_map_all.
      intros kv. cbn [fst snd JSON.stringify].
      now rewrite !no_control_app, !no_control_quote.
    - apply no_control_join; [reflexivity|]. apply forallb_map_all.
      intros step. rewrite stringify_array. repeat rewrite no_control_app.
      repeat (apply andb_true_intro; split); try reflexivity.
      apply no_control_join; [reflexivity|]. apply forallb_map_all.
      exact no_control_item. }
  assert (S : single_line (toJSON r) = true).
  { unfold single_line, WellFormed.free_of. unfold no_control in C.
    revert C. apply all_chars_imp. intros c Hc.
    cbn [existsb]. rewrite orb_false_r. apply negb_true_iff.
    destruct (Ascii.eqb c WellFormed.LF) eqn:E; [|reflexivity].
    apply Ascii.eqb_eq in E. subst c. discriminate Hc. }
  split; [exact C|]. split.
  - revert S. generalize (toJSON r) as s.
    induction s as [|c s IH]; [reflexivity|]. intros H.
    apply free_of_head in H. destruct H as [Hc Hs].
    simpl. now rewrite Hc, (IH Hs).
  - unfold lines. now rewrite (lines_from_last _ _ S).
Qed.

(** ** What [toJSON] writes determines metadata and steps *)

(** *** Quoted strings *)

Lemma unescape_escape (c : ascii) (rest : string) :
  JSON.unescape (JSON.escape c ++ rest) = Some (c, rest).
Proof. destruct c as [[] [] [] [] [] [] [] []]; reflexivity. Qed.

Lemma escape_all_inj (s1 : string) :
  forall s2 r1 r2 : string,
    JSON.escape_all s1 ++ String JSON.DQUOTE r1
    = JSON.escape_all s2 ++ String JSON.DQUOTE r2 ->
    s1 = s2 /\ r1 = r2.
Proof.
  induction s1 as [|c1 s1 IH]; intros [|c2 s2] r1 r2 E.
  - simpl in E. injection E as ->. split; reflexivity.
  - apply (f_equal JSON.unescape) in E.
    cbn [JSON.escape_all] in E. rewrite append_assoc, unescape_escape in E.
    discriminate E.
  - apply (f_equal JSON.unescape) in E.
    cbn [JSON.escape_all] in E. rewrite append_assoc, unescape_escape in E.
    discriminate E.
  - apply (f_equal JSON.unescape) in E.
    cbn [JSON.escape_all] in E. rewrite !append_assoc, !unescape_escape in E.
    injection E as -> E. destruct (IH _ _ _ E) as [-> ->]. split; reflexivity.
Qed.

(** A quoted string ends at its closing quote: two texts that begin with
    quoted strings and are equal begin with the same string. *)
Lemma quote_inj (s1 s2 r1 r2 : string) :
  JSON.quote s1 ++ r1 = JSON.quote s2 ++ r2 -> s1 = s2 /\ r1 = r2.
Proof.
  unfold JSON.quote. cbn [append]. intros E. injection E as E.
  rewrite !append_assoc in E. cbn [append] in E.
  exact (escape_all_inj _ _ _ _ E).
Qed.

(** *** Numbers *)

Lemma number_json_chars (n : JS.number) :
  WellFormed.free_of [","; "}"; JSON.DQUOTE]%char
    (JSON.stringify (JSON.Number n)) = true
  /\ JSON.stringify (JSON.Number n) <> "".
Proof.
  split.
  - destruct n; try reflexivity.
    apply Number_toString_chars. reflexivity.
  - destruct n; try discriminate. apply Number_toString_safe.
Qed.

(** A text without comma and closing brace ends where the first of them
    stands. *)
Lemma delimited_inj (a : string) :
  forall (b r1 r2 : string) (d1 d2 : ascii),
    WellFormed.free_of [","; "}"; JSON.DQUOTE]%char a = true ->
    WellFormed.free_of [","; "}"; JSON.DQUOTE]%char b = true ->
    In d1 [","; "}"]%char -> In d2 [","; "}"]%char ->
    a ++ String d1 r1 = b ++ String d2 r2 ->
    a = b /\ String d1 r1 = String d2 r2.
Proof.
  assert (X : forall (c d : ascii) (s : string),
             WellFormed.free_of [","; "}"; JSON.DQUOTE]%char (String c s) = true ->
             In d [","; "}"]%char -> c <> d).
  { intros c d s F D ->. unfold WellFormed.free_of in F.
    cbn [WellFormed.all_chars] in F. apply andb_prop in F. destruct F as [F _].
    destruct D as [<- | [<- | []]]; discriminate F. }
  induction a as [|c a IH]; intros [|c' b] r1 r2 d1 d2 Fa Fb D1 D2 E.
  - split; [reflexivity | exact E].
  - simpl in E. injection E as -> _. now elim (X _ _ _ Fb D1).
  - simpl in E. injection E as -> _. now elim (X _ _ _ Fa D2).
  - simpl in E. injection E as -> E.
    unfold WellFormed.free_of in Fa, Fb. cbn [WellFormed.all_chars] in Fa, Fb.
    apply andb_prop in Fa, Fb. destruct Fa as [_ Fa], Fb as [_ Fb].
    destruct (IH _ _ _ _ _ Fa Fb D1 D2 E) as [-> R]. split; [reflexivity | exact R].
Qed.

Lemma number_json_inj (n1 n2 : JS.number) (d1 d2 : ascii) (r1 r2 : string) :
  In d1 [","; "}"]%char -> In d2 [","; "}"]%char ->
  JSON.stringify (JSON.Number n1) ++ String d1 r1
  = JSON.stringify (JSON.Number n2) ++ String d2 r2 ->
  JSON.stringify (JSON.Number n1) = JSON.stringify (JSON.Number n2)
  /\ String d1 r1 = String d2 r2.
Proof.
  intros D1 D2.
  apply delimited_inj; try assumption; apply number_json_chars.
Qed.

(** The text of a number does not begin like a quoted string. *)
Lemma number_not_quoted (n : JS.number) (s r1 r2 : string) :
  JSON.stringify (JSON.Number n) ++ r1 <> JSON.quote s ++ r2.
Proof.
  destruct (number_json_chars n) as [F NE].
  destruct (JSON.stringify (JSON.Number n)) as [|c t]; [congruence|].
  unfold WellFormed.free_of in F. cbn [WellFormed.all_chars] in F.
  apply andb_prop in F. destruct F as [F _].
  unfold JSON.quote. cbn [append]. intros E. injection E as -> _.
  discriminate F.
Qed.

(** *** Items *)

Lemma ItemType_name_inj (t1 t2 : ItemType) :
  ItemType_name t1 = ItemType_name t2 -> t1 = t2.
Proof. destruct t1, t2; simpl; intros E; try reflexivity; discriminate E. Qed.

Lemma stringify_item (i : StepItem) :
  JSON.stringify (StepItem_json i)
  = match i with
    | Text v =>
        "{" ++ JSON.quote "type" ++ ":" ++ JSON.quote "text"
            ++ "," ++ JSON.quote "value" ++ ":" ++ JSON.quote v ++ "}"
    | Item t n q u =>
        "{" ++ JSON.quote "type" ++ ":" ++ JSON.quote (ItemType_name t)
            ++ "," ++ JSON.quote "name" ++ ":" ++ JSON.quote n
            ++ match q with
               | Some q' =>
                   "," ++ JSON.quote "quantity" ++ ":"
                       ++ JSON.stringify (Quantity_json q')
               | None => ""
               end
            ++ match u with
               | Some u' => "," ++ JSON.quote "units" ++ ":" ++ JSON.quote u'
               | None => ""
               end
            ++ "}"
    end.
Proof.
  destruct i as [v | t n [q|] [u|]];
    unfold StepItem_json, JSON.property, option_map; cbn [app];
    cbn [JSON.stringify map JS.join fst snd];
    repeat rewrite append_assoc; reflexivity.
Qed.

Lemma string_tail (c d : ascii) (a b : string) :
  String c a = String d b -> c = d /\ a = b.
Proof. intros E. injection E as -> ->. split; reflexivity. Qed.

(** Equal texts are taken apart from the left: equal characters are dropped,
    quoted strings are compared, and the text of a number is compared with
    what stands in the same place. *)
Ltac peel E :=
  repeat
    first
      [ discriminate E
      | progress cbn [append] in E
      | rewrite append_assoc in E
      | match type of E with
        | String _ _ = String _ _ =>
            let C := fresh "C" in
            apply string_tail in E; destruct E as [C E];
            first [ discriminate C | clear C ]
        | JSON.quote _ ++ _ = JSON.quote _ ++ _ =>
            let H := fresh "H" in
            apply quote_inj in E; destruct E as [H E];
            first [ discriminate H | subst | idtac ]
        | JSON.stringify (JSON.Number _) ++ String _ _
          = JSON.stringify (JSON.Number _) ++ String _ _ =>
            let H := fresh "N" in
            apply number_json_inj in E; [|simpl; tauto | simpl; tauto];
            destruct E as [H E]
        | JSON.stringify (JSON.Number _) ++ _ = JSON.quote _ ++ _ =>
            now elim (number_not_quoted _ _ _ _ E)
        | JSON.quote _ ++ _ = JSON.stringify (JSON.Number _) ++ _ =>
            symmetry in E; now elim (number_not_quoted _ _ _ _ E)
        end ].

(** What follows the name of an item: quantity, units and closing brace. *)
Lemma item_tail_inj (q1 q2 : option Quantity) (u1 u2 : option string)
  (r1 r2 : string) :
  match q1 with
  | Some q' =>
      "," ++ JSON.quote "quantity" ++ ":" ++ JSON.stringify (Quantity_json q')
  | None => ""
  end
  ++ match u1 with
     | Some u' => "," ++ JSON.quote "units" ++ ":" ++ JSON.quote u'
     | None => ""
     end
  ++ "}" ++ r1
  = match q2 with
    | Some q' =>
        "," ++ JSON.quote "quantity" ++ ":" ++ JSON.stringify (Quantity_json q')
    | None => ""
    end
    ++ match u2 with
       | Some u' => "," ++ JSON.quote "units" ++ ":" ++ JSON.quote u'
       | None => ""
       end
    ++ "}" ++ r2 ->
  same_json_quantity q1 q2 /\ u1 = u2 /\ r1 = r2.
Proof.
  intros E.
  destruct q1 as [[n1|s1]|], q2 as [[n2|s2]|], u1 as [u1|], u2 as [u2|];
    try change (JSON.stringify (Quantity_json (QString s1)))
      with (JSON.quote s1) in E;
    try change (JSON.stringify (Quantity_json (QString s2)))
      with (JSON.quote s2) in E;
    try change (Quantity_json (QNumber n1)) with (JSON.Number n1) in E;
    try change (Quantity_json (QNumber n2)) with (JSON.Number n2) in E;
    peel E; subst; cbn [same_json_quantity]; repeat split; assumption.
Qed.

Lemma item_json_inj (i1 i2 : StepItem) (r1 r2 : string) :
  JSON.stringify (StepItem_json i1) ++ r1
  = JSON.stringify (StepItem_json i2) ++ r2 ->
  same_json_item i1 i2 /\ r1 = r2.
Proof.
  rewrite !stringify_item. intros E.
  destruct i1 as [v1 | t1 n1 q1 u1], i2 as [v2 | t2 n2 q2 u2].
  - peel E. subst. split; reflexivity.
  - destruct t2; peel E.
  - destruct t1; peel E.
  - repeat rewrite append_assoc in E. cbn [append] in E.
    apply string_tail in E. destruct E as [_ E].
    apply quote_inj in E. destruct E as [_ E].
    cbn [append] in E. apply string_tail in E. destruct E as [_ E].
    apply quote_inj in E. destruct E as [T E].
    apply ItemType_name_inj in T. subst t2.
    cbn [append] in E. apply string_tail in E. destruct E as [_ E].
    apply quote_inj in E. destruct E as [_ E].
    cbn [append] in E. apply string_tail in E. destruct E as [_ E].
    apply quote_inj in E. destruct E as [-> E].
    destruct (item_tail_inj q1 q2 u1 u2 r1 r2) as [Q [-> ->]].
    + repeat rewrite append_assoc. exact E.
    + cbn [same_json_item]. repeat split. exact Q.
Qed.

(** *** Arrays and objects *)

Section Joined.

Variable A : Type.
Variable enc : A -> string.
Variable R : A -> A -> Prop.
Variable close : ascii.

Hypothesis enc_inj :
  forall (a b : A) (r1 r2 : string),
    enc a ++ r1 = enc b ++ r2 -> R a b /\ r1 = r2.
Hypothesis enc_head :
  forall (a : A) (r : string),
    exists c x, enc a ++ r = String c x /\ c <> close.
Hypothesis close_not_comma : close <> ","%char.

Lemma join_cons (a : A) (l : list A) (r : string) :
  JS.join "," (map enc (a :: l)) ++ String close r
  = enc a ++ match l with
             | [] => String close r
             | _ => String "," (JS.join "," (map enc l) ++ String close r)
             end.
Proof.
  destruct l as [|b l]; [reflexivity|].
  change (JS.join "," (map enc (a :: b :: l)))
    with (enc a ++ "," ++ JS.join "," (map enc (b :: l))).
  now rewrite !append_assoc.
Qed.

(** The elements of two joined lists that are written the same are related
    one by one. *)
Lemma joined_inj (l1 : list A) :
  forall (l2 : list A) (r1 r2 : string),
    JS.join "," (map enc l1) ++ String close r1
    = JS.join "," (map enc l2) ++ String close r2 ->
    Forall2 R l1 l2 /\ r1 = r2.
Proof.
  induction l1 as [|a l1 IH]; intros [|b l2] r1 r2 E.
  - simpl in E. apply string_tail in E. destruct E as [_ ->].
    split; [constructor | reflexivity].
  - rewrite join_cons in E. cbn [map JS.join append] in E.
    destruct (enc_head b
                match l2 with
                | [] => String close r2
                | _ => String "," (JS.join "," (map enc l2) ++ String close r2)
                end) as [c [x [H N]]].
    rewrite H in E. apply string_tail in E. destruct E as [C _]. congruence.
  - rewrite join_cons in E. cbn [map JS.join append] in E.
    destruct (enc_head a
                match l1 with
                | [] => String close r1
                | _ => String "," (JS.join "," (map enc l1) ++ String close r1)
                end) as [c [x [H N]]].
    rewrite H in E. apply string_tail in E. destruct E as [C _]. congruence.
  - rewrite !join_cons in E. apply enc_inj in E. destruct E as [Rab E].
    destruct l1 as [|a' l1], l2 as [|b' l2].
    + apply string_tail in E. destruct E as [_ ->].
      split; [repeat constructor; exact Rab | reflexivity].
    + apply string_tail in E. destruct E as [C _]. congruence.
    + apply string_tail in E. destruct E as [C _]. congruence.
    + apply string_tail in E. destruct E as [_ E].
      destruct (IH _ _ _ E) as [F ->].
      split; [constructor; [exact Rab | exact F] | reflexivity].
Qed.

End Joined.

Lemma Forall2_eq (A : Type) (l1 l2 : list A) : Forall2 eq l1 l2 -> l1 = l2.
Proof. induction 1; [reflexivity | now subst]. Qed.

Lemma stringify_metadata (m : Metadata) :
  JSON.stringify (Metadata_json m)
  = "{" ++ JS.join ","
             (map (fun kv : string * string =>
                     JSON.quote (fst kv) ++ ":" ++ JSON.quote (snd kv)) m)
        ++ "}".
Proof.
  unfold Metadata_json.
  change (JSON.stringify
            (JSON.Object
               (map (fun kv : string * string =>
                       (fst kv, JSON.String_ (snd kv))) m)))
    with ("{" ++ JS.join ","
                   (map (fun kv : string * JSON.value =>
                           JSON.quote (fst kv) ++ ":"
                           ++ JSON.stringify (snd kv))
                        (map (fun kv : string * string =>
                                (fst kv, JSON.String_ (snd kv))) m))
              ++ "}").
  now rewrite map_map.
Qed.

Lemma entry_json_inj (kv1 kv2 : string * string) (r1 r2 : string) :
  (JSON.quote (fst kv1) ++ ":" ++ JSON.quote (snd kv1)) ++ r1
  = (JSON.quote (fst kv2) ++ ":" ++ JSON.quote (snd kv2)) ++ r2 ->
  kv1 = kv2 /\ r1 = r2.
Proof.
  destruct kv1 as [k1 v1], kv2 as [k2 v2]. cbn [fst snd]. intros E.
  repeat rewrite append_assoc in E. apply quote_inj in E. destruct E as [-> E].
  repeat rewrite append_assoc in E. cbn [append] in E.
  apply string_tail in E. destruct E as [_ E].
  apply quote_inj in E. destruct E as [-> ->]. split; reflexivity.
Qed.

(** The metadata object ends at its closing brace. *)
Lemma metadata_json_inj (m1 m2 : Metadata) (r1 r2 : string) :
  JSON.stringify (Metadata_json m1) ++ r1
  = JSON.stringify (Metadata_json m2) ++ r2 ->
  m1 = m2 /\ r1 = r2.
Proof.
  rewrite !stringify_metadata, !append_assoc. cbn [append]. intros E.
  apply string_tail in E. destruct E as [_ E].
  repeat rewrite append_assoc in E. cbn [append] in E.
  apply (joined_inj _ _ eq "}"%char) in E.
  - destruct E as [F ->]. split; [exact (Forall2_eq _ _ _ F) | reflexivity].
  - exact entry_json_inj.
  - intros kv r. unfold JSON.quote. cbn [append].
    do 2 eexists. split; [reflexivity | discriminate].
  - discriminate.
Qed.

Lemma step_json_inj (s1 s2 : Step) (r1 r2 : string) :
  JSON.stringify (JSON.Array (map StepItem_json s1)) ++ r1
  = JSON.stringify (JSON.Array (map StepItem_json s2)) ++ r2 ->
  Forall2 same_json_item s1 s2 /\ r1 = r2.
Proof.
  rewrite !stringify_array, !append_assoc. cbn [append]. intros E.
  apply string_tail in E. destruct E as [_ E].
  repeat rewrite append_assoc in E. cbn [append] in E.
  apply (joined_inj _ _ same_json_item "]"%char) in E.
  - exact E.
  - exact item_json_inj.
  - intros i r. rewrite stringify_item.
    destruct i; cbn [append]; do 2 eexists; (split; [reflexivity | discriminate]).
  - discriminate.
Qed.

Lemma steps_json_inj (l1 l2 : list Step) (r1 r2 : string) :
  JSON.stringify (steps_json l1) ++ r1 = JSON.stringify (steps_json l2) ++ r2 ->
  Forall2 (Forall2 same_json_item) l1 l2 /\ r1 = r2.
Proof.
  unfold steps_json. rewrite !stringify_array, !append_assoc. cbn [append].
  intros E. apply string_tail in E. destruct E as [_ E].
  repeat rewrite append_assoc in E. cbn [append] in E.
  apply (joined_inj _ _ (Forall2 same_json_item) "]"%char) in E.
  - exact E.
  - exact step_json_inj.
  - intros s r. rewrite stringify_array. cbn [append].
    do 2 eexists. split; [reflexivity | discriminate].
  - discriminate.
Qed.

(** Two recipes with the same JSON text have the same metadata and the same
    steps, up to the text of numbers. *)
Lemma toJSON_inj (r1 r2 : Recipe) :
  toJSON r1 = toJSON r2 ->
  metadata r1 = metadata r2
  /\ Forall2 (Forall2 same_json_item) (steps r1) (steps r2).
Proof.
  rewrite !toJSON_text. cbn [append]. intros E.
  apply string_tail in E. destruct E as [_ E].
  apply quote_inj in E. destruct E as [_ E].
  cbn [append] in E. apply string_tail in E. destruct E as [_ E].
  apply metadata_json_inj in E. destruct E as [M E].
  cbn [append] in E. apply string_tail in E. destruct E as [_ E].
  apply quote_inj in E. destruct E as [_ E].
  cbn [append] in E. apply string_tail in E. destruct E as [_ E].
  apply steps_json_inj in E. destruct E as [S _].
  split; [exact M | exact S].
Qed.

Lemma same_json_item_refl (i : StepItem) : same_json_item i i.
Proof.
  destruct i as [v | t n [[x|s]|] u]; cbn; repeat split; reflexivity.
Qed.

(** C10. [toJSON] returns the JSON text of an object with exactly the two
    properties [metadata] and [steps], written in full: the text is that of
    the metadata object and of the array of steps under their keys, two
    recipes have the same text only if they have the same metadata and the
    same steps (items equal up to the text of their numbers, [NaN] and the
    infinities being written [null], [0] and [-0] both [0]), and the
    shopping list and the parser of the recipe have no part in it. *)
Theorem toJSON_fields (r : Recipe) :
  toJSON r
  = "{" ++ JSON.quote "metadata" ++ ":"
        ++ JSON.stringify (Metadata_json (metadata r)) ++ ","
        ++ JSON.quote "steps" ++ ":"
        ++ JSON.stringify (steps_json (steps r)) ++ "}"
  /\ JSON.keys (toJSON_object r) = ["metadata"; "steps"]
  /\ (forall (l : ShoppingList) (p : Parser),
         toJSON {| metadata := metadata r; steps := steps r;
                   shoppingList := l; parser := p |}
         = toJSON r)
  /\ (forall r2 : Recipe,
         toJSON r2 = toJSON r ->
         metadata r2 = metadata r
         /\ Forall2 (Forall2 same_json_item) (steps r2) (steps r))
  /\ (forall r2 : Recipe,
         metadata r2 = metadata r -> steps r2 = steps r ->
         toJSON r2 = toJSON r).
Proof.
  split; [exact (toJSON_text r)|].
  split; [reflexivity|].
  split; [intros l p; reflexivity|].
  split; [intros r2; apply toJSON_inj|].
  intros r2 M S. rewrite !toJSON_text. now rewrite M, S.
Qed.

(** The JSON text of the smoothie. *)
Lemma toJSON_smoothie :
  toJSON Sample.smoothie
  = "{" ++ JSON.quote "metadata" ++ ":{"
    ++ JSON.quote "source" ++ ":"
    ++ JSON.quote "https://www.dinneratthezoo.com/wprm_print/6796" ++ ","
    ++ JSON.quote "total time" ++ ":" ++ JSON.quote "6 minutes" ++ ","
    ++ JSON.quote "servings" ++ ":" ++ JSON.quote "2" ++ "},"
    ++ JSON.quote "steps" ++ ":[["
    ++ JSON.stringify (StepItem_json (Text "Place the ")) ++ ","
    ++ "{" ++ JSON.quote "type" ++ ":" ++ JSON.quote "ingredient" ++ ","
    ++ JSON.quote "name" ++ ":" ++ JSON.quote "apple juice" ++ ","
    ++ JSON.quote "quantity" ++ ":1.5,"
    ++ JSON.quote "units" ++ ":" ++ JSON.quote "cups" ++ "},"
    ++ JS.join ","
         (map (fun i => JSON.stringify (StepItem_json i))
            (skipn 2 (hd [] (steps Sample.smoothie))))
    ++ "],["
    ++ "{" ++ JSON.quote "type" ++ ":" ++ JSON.quote "text" ++ ","
    ++ JSON.quote "value" ++ ":" ++ JSON.quote "Taste and add " ++ "},"
    ++ "{" ++ JSON.quote "type" ++ ":" ++ JSON.quote "ingredient" ++ ","
    ++ JSON.quote "name" ++ ":" ++ JSON.quote "honey" ++ "},"
    ++ "{" ++ JSON.quote "type" ++ ":" ++ JSON.quote "text" ++ ","
    ++ JSON.quote "value" ++ ":" ++ JSON.quote " if desired." ++ "}"
    ++ "]]}".
Proof. vm_compute. reflexivity. Qed.

(** ** The lines of the whole text *)

Lemma lines_from_app (a b current : string) :
  lines_from current (a ++ String WellFormed.LF b)
  = (lines_from current a ++ lines_from "" b)%list.
Proof.
  revert current. induction a as [|c a IH]; intros current; [reflexivity|].
  simpl. destruct (Ascii.eqb c "010"); simpl; now rewrite IH.
Qed.

Lemma lines_join_blocks (texts : list string) :
  lines (JS.join (JS.LF ++ JS.LF) texts) = blocks (map lines texts).
Proof.
  unfold lines. induction texts as [|t texts IH]; [reflexivity|].
  destruct texts as [|t' texts]; [reflexivity|].
  change (JS.join (JS.LF ++ JS.LF) (t :: t' :: texts))
    with (t ++ String WellFormed.LF
               (String WellFormed.LF (JS.join (JS.LF ++ JS.LF) (t' :: texts)))).
  rewrite lines_from_app.
  change (lines_from "" (String WellFormed.LF ?x)) with ("" :: lines_from "" x).
  rewrite IH. reflexivity.
Qed.

Lemma lines_metadata_text (m : Metadata) (rest : string) :
  lines (metadata_text m ++ rest)
  = (List.concat (map (fun kv => lines (entry_line kv)) m) ++ lines rest)%list.
Proof.
  unfold lines. induction m as [|kv m IH]; [reflexivity|].
  unfold metadata_text. simpl map. rewrite concat_empty_cons.
  rewrite append_assoc, metadata_line_entry, lines_from_app.
  fold (metadata_text m). rewrite IH. simpl List.concat.
  now rewrite <- app_assoc.
Qed.

(** X12. The lines of the text [toCooklang] returns, for every recipe: the
    lines of the metadata entries, one empty line, the lines of the steps
    with one empty line between two steps, and right after them, with no
    empty line in between, the lines of the categories of the shopping list
    with one empty line between two categories.  Where there is no step, or
    no category, one empty line stands instead. *)
Theorem toCooklang_lines (r : Recipe) :
  lines (toCooklang r)
  = (List.concat (map (fun kv => lines (entry_line kv)) (metadata r))
     ++ "" :: blocks (map lines (map step_text (steps r)))
     ++ blocks (map lines (map category_text (shoppingList r))))%list.
Proof.
  rewrite toCooklang_text, lines_metadata_text. f_equal.
  rewrite <- !lines_join_blocks.
  set (S := JS.join (JS.LF ++ JS.LF) (map step_text (steps r))).
  set (C := JS.join (JS.LF ++ JS.LF) (map category_text (shoppingList r))).
  change (JS.LF ++ S ++ JS.LF ++ C)
    with (String WellFormed.LF (S ++ String WellFormed.LF C)).
  unfold lines.
  change (lines_from "" (String WellFormed.LF (S ++ String WellFormed.LF C)))
    with ("" :: lines_from "" (S ++ String WellFormed.LF C)).
  now rewrite lines_from_app.
Qed.
